(** * code-optimizer: the VS Code extension's analysis, embedded in Rocq

    Source: the module of the VS Code extension that registers the
    commands and analyses documents, its functions [isSupported] and
    [simulateRustAnalysis] (with the helpers of the JavaScript runtime
    they call: [String.prototype.includes], [split], [trim], [replace],
    [Array.prototype.push], [forEach] and [filter]), and, further down,
    [getSeverity], [analyzeDocument], the commands that call it and the
    count that [showConfig] displays.

    Modelling conventions.
    - A JavaScript string is a [string]; each [ascii] stands for one code
      unit below 256.  Every pattern the analysis looks for is ASCII.
    - A JavaScript number used as a confidence or a threshold is a
      rational [Q]: every finite double is a rational and [>=] on finite
      doubles is [>=] on the rationals they denote.  The literals [0.6],
      [0.7], [0.8], [0.9] are taken at their decimal value.  The
      analysis only copies and compares confidences; the one computation
      with them, the percentage in the message of a diagnostic, is
      commented where it is defined.
    - Line numbers and indices are [nat].
    - The workspace configuration is read-only global state in the source
      ([vscode.workspace.getConfiguration]); here it is an explicit
      argument.  The [async] function is modelled by the value its promise
      resolves to. *)

From stdpp Require Import gmap strings.
From Stdlib Require Import Ascii String List QArith Qminmax Qround
  DecimalString Bool Arith Lia Sorted.
Import ListNotations.

Close Scope Q_scope.
Local Open Scope string_scope.
Local Open Scope list_scope.

(** ** The string primitives of the runtime *)

Module JSString.

(** The line feed, ['\n'], and the double quote. *)
Definition LF : ascii := "010"%char.
Definition DQUOTE : ascii := "034"%char.

(** [s.includes(pat)]: [pat] occurs in [s] as a contiguous substring. *)
Fixpoint includes (pat s : string) : bool :=
  String.prefix pat s ||
  match s with
  | EmptyString => false
  | String _ s' => includes pat s'
  end.

(** [n] code units dropped from the front. *)
Fixpoint drop (n : nat) (s : string) : string :=
  match n, s with
  | O, _ => s
  | S _, EmptyString => EmptyString
  | S n', String _ s' => drop n' s'
  end.

(** [s.replace(pat, rep)] with a string pattern: only the first
    occurrence is replaced.  (None of the replacement strings of the
    analysis contains a dollar sign, so no replacement pattern is
    involved.) *)
Fixpoint replace (pat rep s : string) : string :=
  if String.prefix pat s then String.append rep (drop (String.length pat) s)
  else match s with
       | EmptyString => EmptyString
       | String c s' => String c (replace pat rep s')
       end.

(** [s.split(sep)] for a separator of one code unit.  The result is
    never empty: the empty string splits into one empty piece. *)
Fixpoint split (sep : ascii) (s : string) : list string :=
  match s with
  | EmptyString => [EmptyString]
  | String c s' =>
      if Ascii.eqb c sep then EmptyString :: split sep s'
      else match split sep s' with
           | [] => [String c EmptyString]
           | piece :: pieces => String c piece :: pieces
           end
  end.

(** White space and line terminators of ECMAScript among the code units
    below 256: TAB, LF, VT, FF, CR, SP and NBSP. *)
Definition isWhiteSpace (c : ascii) : bool :=
  let n := nat_of_ascii c in
  (Nat.leb 9 n && Nat.leb n 13) || Nat.eqb n 32 || Nat.eqb n 160.

Fixpoint trimStart (s : string) : string :=
  match s with
  | EmptyString => EmptyString
  | String c s' => if isWhiteSpace c then trimStart s' else s
  end.

(** [trimEnd s] keeps a code unit when it is not white space or when
    something is left after it. *)
Fixpoint trimEnd (s : string) : string :=
  match s with
  | EmptyString => EmptyString
  | String c s' =>
      match trimEnd s' with
      | EmptyString => if isWhiteSpace c then EmptyString
                       else String c EmptyString
      | rest => String c rest
      end
  end.

(** [s.trim()] *)
Definition trim (s : string) : string := trimEnd (trimStart s).

End JSString.

(** ** The editor objects the extension reads *)

Module Vscode.

(** A text document: its language identifier and its text. *)
Record TextDocument : Type := {
  languageId : string;
  getText : string
}.

(** The section [codeOptimizer] of the workspace configuration.  A
    setting that the user has not set is [None]. *)
Record WorkspaceConfiguration : Type := {
  enabledRules : option (gmap string bool);
  minimumConfidence : option Q
}.

(** [config.get<T>(key, defaultValue)] *)
Definition get {T : Type} (setting : option T) (defaultValue : T) : T :=
  match setting with
  | Some v => v
  | None => defaultValue
  end.

End Vscode.

(** ** The extension *)

Module Extension.
Import JSString Vscode.

(** The [Optimization] typedef. *)
Record Optimization : Type := {
  rule_name : string;
  language : string;
  line_number : nat;
  original_code : string;
  suggested_code : string;
  explanation : string;
  severity : string;
  confidence : Q
}.

(** [isSupported(languageId)] *)
Definition isSupported (languageId : string) : bool :=
  existsb (String.eqb languageId)
          ["javascript"; "typescript"; "python"; "rust"].

(** [optimizations.push(opt)] *)
Definition push (optimizations : list Optimization) (opt : Optimization)
  : list Optimization :=
  optimizations ++ [opt].

(** [lines.forEach((line, index) => ...)] threading the array that the
    callback mutates. *)
Fixpoint forEach {A St : Type} (callback : A -> nat -> St -> St)
         (l : list A) (index : nat) (s : St) : St :=
  match l with
  | [] => s
  | x :: l' => forEach callback l' (S index) (callback x index s)
  end.

(** The body of the callback of [simulateRustAnalysis], for one line. *)
Definition analyzeLine (languageId : string) (line : string) (index : nat)
           (optimizations : list Optimization) : list Optimization :=
  let optimizations :=
    if String.eqb languageId "javascript" || String.eqb languageId "typescript"
    then
      let optimizations :=
        if includes "let " line && includes "=" line
           && negb (includes "let i" line)
        then push optimizations
               {| rule_name := "use-const";
                  language := "JavaScript";
                  line_number := index + 1;
                  original_code := trim line;
                  suggested_code := replace "let " "const " line;
                  explanation := "Use 'const' for variables that never change";
                  severity := "Info";
                  confidence := 0.8%Q |}
        else optimizations in
      if includes "console.log(" line
      then push optimizations
             {| rule_name := "no-console";
                language := "JavaScript";
                line_number := index + 1;
                original_code := trim line;
                suggested_code := replace "console.log(" "// console.log(" line;
                explanation := "Remove console.log statements in production code";
                severity := "Warning";
                confidence := 0.9%Q |}
      else optimizations
    else optimizations in
  if String.eqb languageId "python"
  then
    let optimizations :=
      if includes ".format(" line
      then push optimizations
             {| rule_name := "use-f-strings";
                language := "Python";
                line_number := index + 1;
                original_code := trim line;
                suggested_code :=
                  replace ".format(" (String "f" (String DQUOTE EmptyString)) line;
                explanation :=
                  "Use f-strings instead of .format() for better performance";
                severity := "Info";
                confidence := 0.7%Q |}
      else optimizations in
    if includes "print(" line
    then push optimizations
           {| rule_name := "no-print-debug";
              language := "Python";
              line_number := index + 1;
              original_code := trim line;
              suggested_code := replace "print(" "# print(" line;
              explanation := "Remove print statements in production code";
              severity := "Warning";
              confidence := 0.8%Q |}
    else optimizations
  else optimizations.

(** [opt.confidence >= minConfidence] *)
Definition passes (minConfidence : Q) (opt : Optimization) : bool :=
  Qle_bool minConfidence (confidence opt).

(** [simulateRustAnalysis(document)] *)
Definition simulateRustAnalysis (config : WorkspaceConfiguration)
           (document : TextDocument) : list Optimization :=
  let minConfidence := get (minimumConfidence config) 0.6%Q in
  let text := getText document in
  let lines := split LF text in
  let optimizations :=
    forEach (analyzeLine (languageId document)) lines 0 [] in
  List.filter (passes minConfidence) optimizations.

End Extension.

Import JSString Vscode Extension.

(** ** Reading the analysis line by line *)

(** The four object literals of the callback. *)
Definition useConst (line : string) (index : nat) : Optimization :=
  {| rule_name := "use-const";
     language := "JavaScript";
     line_number := index + 1;
     original_code := trim line;
     suggested_code := replace "let " "const " line;
     explanation := "Use 'const' for variables that never change";
     severity := "Info";
     confidence := 0.8%Q |}.

Definition noConsole (line : string) (index : nat) : Optimization :=
  {| rule_name := "no-console";
     language := "JavaScript";
     line_number := index + 1;
     original_code := trim line;
     suggested_code := replace "console.log(" "// console.log(" line;
     explanation := "Remove console.log statements in production code";
     severity := "Warning";
     confidence := 0.9%Q |}.

Definition useFStrings (line : string) (index : nat) : Optimization :=
  {| rule_name := "use-f-strings";
     language := "Python";
     line_number := index + 1;
     original_code := trim line;
     suggested_code :=
       replace ".format(" (String "f" (String DQUOTE EmptyString)) line;
     explanation := "Use f-strings instead of .format() for better performance";
     severity := "Info";
     confidence := 0.7%Q |}.

Definition noPrintDebug (line : string) (index : nat) : Optimization :=
  {| rule_name := "no-print-debug";
     language := "Python";
     line_number := index + 1;
     original_code := trim line;
     suggested_code := replace "print(" "# print(" line;
     explanation := "Remove print statements in production code";
     severity := "Warning";
     confidence := 0.8%Q |}.

(** The guards of the callback. *)
Definition isJavaScriptLike (languageId : string) : bool :=
  String.eqb languageId "javascript" || String.eqb languageId "typescript".

Definition isPython (languageId : string) : bool :=
  String.eqb languageId "python".

Definition useConstGuard (line : string) : bool :=
  includes "let " line && includes "=" line && negb (includes "let i" line).

(** What one visit of the callback appends. *)
Definition lineOptimizations (languageId line : string) (index : nat)
  : list Optimization :=
  analyzeLine languageId line index [].

(** What the whole loop appends, from a given start index. *)
Fixpoint collect (languageId : string) (lines : list string) (index : nat)
  : list Optimization :=
  match lines with
  | [] => []
  | line :: rest =>
      lineOptimizations languageId line index ++ collect languageId rest (S index)
  end.

(** The array [optimizations] just before the final [filter]. *)
Definition candidates (document : TextDocument) : list Optimization :=
  collect (languageId document) (split LF (getText document)) 0.

(** What a visit of the callback can append, as a relation: one
    constructor per [push] of the source, with the guards on the path to
    it. *)
Inductive emits (languageId line : string) (index : nat) : Optimization -> Prop :=
| emits_useConst :
    isJavaScriptLike languageId = true ->
    useConstGuard line = true ->
    emits languageId line index (useConst line index)
| emits_noConsole :
    isJavaScriptLike languageId = true ->
    includes "console.log(" line = true ->
    emits languageId line index (noConsole line index)
| emits_useFStrings :
    isPython languageId = true ->
    includes ".format(" line = true ->
    emits languageId line index (useFStrings line index)
| emits_noPrintDebug :
    isPython languageId = true ->
    includes "print(" line = true ->
    emits languageId line index (noPrintDebug line index).

(** ** Notions the specification speaks of *)

(** The language each rule writes into its entries. *)
Definition ruleLanguage (rule : string) : string :=
  if String.eqb rule "use-const" || String.eqb rule "no-console"
  then "JavaScript" else "Python".

(** The threshold brought into the interval from 0 to 1, as the
    specification words it. *)
Definition clamp01 (t : Q) : Q :=
  if Qle_bool t 0 then 0%Q else if Qle_bool 1 t then 1%Q else t.

(** The order in which the callback tries the rules. *)
Definition registrationOrder : list string :=
  ["use-const"; "no-console"; "use-f-strings"; "no-print-debug"].

(** Position of a name in a list (the length of the list when absent). *)
Fixpoint indexOf (name : string) (names : list string) : nat :=
  match names with
  | [] => 0
  | n :: rest => if String.eqb name n then 0 else S (indexOf name rest)
  end.

Definition ruleRank (o : Optimization) : nat :=
  indexOf (rule_name o) registrationOrder.

(** Line number first, then the rank of the rule. *)
Definition precedes (o1 o2 : Optimization) : Prop :=
  line_number o1 < line_number o2 \/
  (line_number o1 = line_number o2 /\ ruleRank o1 < ruleRank o2).

(** [showConfig] is the only reader of the setting: it counts its keys,
    [Object.keys(enabledRules || {}).length]. *)
Definition showConfig_enabledRulesCount (config : WorkspaceConfiguration) : nat :=
  size (get (enabledRules config) (∅ : gmap string bool)).

(** ** Configurations and documents of the scenarios *)

(** A configuration with the threshold set, the rest unchanged. *)
Definition withMinimumConfidence (t : Q) (config : WorkspaceConfiguration)
  : WorkspaceConfiguration :=
  {| enabledRules := enabledRules config; minimumConfidence := Some t |}.

(** No setting at all: the threshold falls back to 0.6. *)
Definition defaultConfig : WorkspaceConfiguration :=
  {| enabledRules := None; minimumConfidence := None |}.

Definition dq : string := String DQUOTE EmptyString.
Definition nl : string := String LF EmptyString.

(** Scenario A of the specification. *)
Definition scenarioA_text : string :=
  "let userName = " +:+ dq +:+ "John" +:+ dq +:+ ";" +:+ nl +:+
  "console.log(" +:+ dq +:+ "Debug:" +:+ dq +:+ ", userName);".

Definition scenarioA : TextDocument :=
  {| languageId := "javascript"; getText := scenarioA_text |}.

(** Scenario D of the specification: use-const switched off. *)
Definition scenarioD_config : WorkspaceConfiguration :=
  {| enabledRules := Some ({[ "use-const" := false ]} : gmap string bool);
     minimumConfidence := None |}.

(** A Rust text with both patterns of the Rust catalogue of the
    specification: a [.clone()] call and a [println!] invocation. *)
Definition rustSample : TextDocument :=
  {| languageId := "rust";
     getText := "let b = a.clone();" +:+ nl +:+
                "println!(" +:+ dq +:+ "{}" +:+ dq +:+ ", b);" |}.

(** A TypeScript text that triggers both rules of its branch. *)
Definition typescriptSample : TextDocument :=
  {| languageId := "typescript";
     getText := "let total: number = 0;" +:+ nl +:+ "console.log(total);" |}.

(** A line with white space around the statement. *)
Definition paddedSample : TextDocument :=
  {| languageId := "javascript";
     getText := "// header" +:+ nl +:+ "    console.log(1);  " |}.

(** A line that triggers both JavaScript rules: the two entries share
    the line number and come in the order of the rules. *)
Definition twoRulesSample : TextDocument :=
  {| languageId := "javascript";
     getText := "console.log(0);" +:+ nl +:+ "let x = 1; console.log(x);" |}.

(** A counter that is declared with [let] and reassigned on the next
    line. *)
Definition reassignedSample : TextDocument :=
  {| languageId := "javascript";
     getText := "let count = 0;" +:+ nl +:+ "count = count + 1;" |}.

(** Three bindings that differ in the variable name only. *)
Definition bindingsSample : TextDocument :=
  {| languageId := "javascript";
     getText := "let index = 0;" +:+ nl +:+ "let items = [];" +:+ nl +:+
                "let count = 0;" |}.

(** ** Further notions for the coverage of the analysis *)

(** The substring each rule looks for, and what [replace] puts in its
    place in the suggested code. *)
Definition rulePattern (rule : string) : string :=
  if String.eqb rule "use-const" then "let "
  else if String.eqb rule "no-console" then "console.log("
  else if String.eqb rule "use-f-strings" then ".format("
  else "print(".

Definition ruleReplacement (rule : string) : string :=
  if String.eqb rule "use-const" then "const "
  else if String.eqb rule "no-console" then "// console.log("
  else if String.eqb rule "use-f-strings" then String "f" (String DQUOTE EmptyString)
  else "# print(".

(** An entry moved [k] lines down. *)
Definition shiftLines (k : nat) (o : Optimization) : Optimization :=
  {| rule_name := rule_name o;
     language := language o;
     line_number := line_number o + k;
     original_code := original_code o;
     suggested_code := suggested_code o;
     explanation := explanation o;
     severity := severity o;
     confidence := confidence o |}.

(** Two texts, one after the other, with a line feed between them. *)
Definition joinTexts (a b : string) : string := a +:+ String LF b.

(** Scenario C of the specification, a Python text. *)
Definition scenarioC : TextDocument :=
  {| languageId := "python";
     getText := "msg = 'hi {}'.format(name)" +:+ nl +:+ "print(msg)" |}.

Definition emptyDocument (languageId : string) : TextDocument :=
  {| languageId := languageId; getText := EmptyString |}.

(** White space at the ends of a string, and strings of white space
    only. *)
Definition startsWithWhiteSpace (s : string) : bool :=
  match s with
  | EmptyString => false
  | String c _ => isWhiteSpace c
  end.

Fixpoint endsWithWhiteSpace (s : string) : bool :=
  match s with
  | EmptyString => false
  | String c EmptyString => isWhiteSpace c
  | String _ s' => endsWithWhiteSpace s'
  end.

Fixpoint allWhiteSpace (s : string) : bool :=
  match s with
  | EmptyString => true
  | String c s' => isWhiteSpace c && allWhiteSpace s'
  end.

(** The carriage return that ends each line of a text with Windows line
    ends once the text is split at the line feeds. *)
Definition CR : ascii := "013"%char.

Definition withCR (line : string) : string := line +:+ String CR EmptyString.

(** An entry whose suggested code keeps the carriage return. *)
Definition keepCR (o : Optimization) : Optimization :=
  {| rule_name := rule_name o;
     language := language o;
     line_number := line_number o;
     original_code := original_code o;
     suggested_code := withCR (suggested_code o);
     explanation := explanation o;
     severity := severity o;
     confidence := confidence o |}.

(** The last code unit of a non-empty string. *)
Fixpoint lastUnit (s : string) : option ascii :=
  match s with
  | EmptyString => None
  | String c EmptyString => Some c
  | String _ s' => lastUnit s'
  end.

(** ** Diagnostics: what [analyzeDocument] and the commands do with the
    result *)

(** [vscode.DiagnosticSeverity] *)
Module DiagnosticSeverity.
Inductive t : Set := Error | Warning | Information | Hint.
End DiagnosticSeverity.

(** [new vscode.Range(startLine, startCharacter, endLine, endCharacter)] *)
Record Range : Type := mkRange {
  startLine : nat;
  startCharacter : nat;
  endLine : nat;
  endCharacter : nat
}.

(** A [vscode.Diagnostic] with the fields the extension sets. *)
Record Diagnostic : Type := {
  range : Range;
  message : string;
  diagnosticSeverity : DiagnosticSeverity.t;
  code : string;
  source : string
}.

(** The document object as [analyzeDocument] uses it: the text document
    of the analysis, its URI, its file name, and [lineAt(line).text],
    which is [None] where the editor throws (no such line). *)
Record EditorDocument : Type := {
  textDocument : TextDocument;
  uri : string;
  fileName : string;
  lineAt : nat -> option string
}.

(** What the extension shows to the user.  The constructors carry the
    values that the message texts are formatted from. *)
Inductive Notification : Type :=
| FoundOpportunities (count : nat) (file : string)
| AnalysisError
| NoActiveEditor
| AnalyzingWorkspace
| WorkspaceComplete (total : nat).

(** The state the extension writes: the diagnostic collection, a map from
    URI to the diagnostics last set for it, and the messages shown so
    far. *)
Record Editor : Type := {
  diagnosticCollection : gmap string (list Diagnostic);
  notifications : list Notification
}.

(** [getSeverity(severity)] *)
Definition getSeverity (severity : string) : DiagnosticSeverity.t :=
  if String.eqb severity "Error" then DiagnosticSeverity.Error
  else if String.eqb severity "Warning" then DiagnosticSeverity.Warning
  else if String.eqb severity "Info" then DiagnosticSeverity.Information
  else DiagnosticSeverity.Hint.

(** [Math.round(x)]: the nearest integer, halves upwards. *)
Definition Math_round (x : Q) : Z := Qfloor (x + (1 # 2))%Q.

(** An integer in a template literal. *)
Definition numberToString (n : Z) : string :=
  NilZero.string_of_int (Z.to_int n).

(** The message of a diagnostic:
    [`${opt.explanation} (${Math.round(opt.confidence * 100)}% confidence)`].
    (The three confidences times 100 are within a rounding error of 70,
    80 and 90, so the rounding of the product in the source does not
    change the integer.) *)
Definition diagnosticMessage (opt : Optimization) : string :=
  explanation opt +:+ " (" +:+
  numberToString (Math_round (confidence opt * 100)%Q) +:+ "% confidence)".

(** The callback of [optimizations.map] in [analyzeDocument]. *)
Definition toDiagnostic (document : EditorDocument) (opt : Optimization)
  : option Diagnostic :=
  let line := Z.to_nat (Z.max 0 (Z.of_nat (line_number opt) - 1)) in
  match lineAt document line with
  | None => None
  | Some text =>
      Some {| range := mkRange line 0 line (String.length text);
              message := diagnosticMessage opt;
              diagnosticSeverity := getSeverity (severity opt);
              code := rule_name opt;
              source := "Code Optimizer" |}
  end.

(** [array.map(callback)] with a callback that can throw: the first
    failure ends the map. *)
Fixpoint mapThrowing {A B : Type} (callback : A -> option B) (l : list A)
  : option (list B) :=
  match l with
  | [] => Some []
  | x :: rest =>
      match callback x with
      | None => None
      | Some y =>
          match mapThrowing callback rest with
          | None => None
          | Some ys => Some (y :: ys)
          end
      end
  end.

Definition notify (editor : Editor) (n : Notification) : Editor :=
  {| diagnosticCollection := diagnosticCollection editor;
     notifications := notifications editor ++ [n] |}.

(** [analyzeDocument(document, diagnosticCollection)]: the new state and
    the number returned. *)
Definition analyzeDocument (config : WorkspaceConfiguration)
           (document : EditorDocument) (editor : Editor) : Editor * nat :=
  if negb (isSupported (languageId (textDocument document))) then (editor, 0)
  else
    let optimizations := simulateRustAnalysis config (textDocument document) in
    match mapThrowing (toDiagnostic document) optimizations with
    | Some diagnostics =>
        let editor :=
          {| diagnosticCollection :=
               <[uri document := diagnostics]> (diagnosticCollection editor);
             notifications := notifications editor |} in
        let editor :=
          if Nat.ltb 0 (List.length optimizations)
          then notify editor
                 (FoundOpportunities (List.length optimizations) (fileName document))
          else editor in
        (editor, List.length optimizations)
    | None => (notify editor AnalysisError, 0)
    end.

(** The command [codeOptimizer.analyzeFile]. *)
Definition analyzeFileCommand (config : WorkspaceConfiguration)
           (activeTextEditor : option EditorDocument) (editor : Editor) : Editor :=
  match activeTextEditor with
  | None => notify editor NoActiveEditor
  | Some document => fst (analyzeDocument config document editor)
  end.

(** The loop of the command [codeOptimizer.analyzeWorkspace]. *)
Fixpoint analyzeFiles (config : WorkspaceConfiguration)
         (files : list EditorDocument) (editor : Editor) (totalOptimizations : nat)
  : Editor * nat :=
  match files with
  | [] => (editor, totalOptimizations)
  | document :: rest =>
      let '(editor, optimizations) := analyzeDocument config document editor in
      analyzeFiles config rest editor (totalOptimizations + optimizations)
  end.

(** The command [codeOptimizer.analyzeWorkspace], on the documents of
    the files found. *)
Definition analyzeWorkspaceCommand (config : WorkspaceConfiguration)
           (files : list EditorDocument) (editor : Editor) : Editor :=
  let editor := notify editor AnalyzingWorkspace in
  let '(editor, totalOptimizations) := analyzeFiles config files editor 0 in
  notify editor (WorkspaceComplete totalOptimizations).

(** The listeners on save and on open. *)
Definition onDidSaveTextDocument (config : WorkspaceConfiguration)
           (document : EditorDocument) (editor : Editor) : Editor :=
  if isSupported (languageId (textDocument document))
  then fst (analyzeDocument config document editor)
  else editor.

(** A document in the editor whose lines are the pieces of its text. *)
Definition openDocument (document : TextDocument) (uri : string) : EditorDocument :=
  {| textDocument := document;
     uri := uri;
     fileName := uri;
     lineAt := nth_error (split LF (getText document)) |}.

(** A document whose [lineAt] always throws. *)
Definition brokenDocument (document : TextDocument) (uri : string) : EditorDocument :=
  {| textDocument := document;
     uri := uri;
     fileName := uri;
     lineAt := fun _ => None |}.

Definition emptyEditor : Editor :=
  {| diagnosticCollection := ∅; notifications := [] |}.

(** The property of [lineAt] that the editor guarantees: each line of the
    text exists. *)
Definition lineAtCovers (document : EditorDocument) : Prop :=
  forall i : nat,
    i < List.length (split LF (getText (textDocument document))) ->
    exists text : string, lineAt document i = Some text.

(** The severity and the message of the diagnostics of each rule. *)
Definition ruleSeverity (rule : string) : DiagnosticSeverity.t :=
  if String.eqb rule "use-const" || String.eqb rule "use-f-strings"
  then DiagnosticSeverity.Information
  else DiagnosticSeverity.Warning.

Definition ruleMessage (rule : string) : string :=
  if String.eqb rule "use-const"
  then "Use 'const' for variables that never change (80% confidence)"
  else if String.eqb rule "no-console"
  then "Remove console.log statements in production code (90% confidence)"
  else if String.eqb rule "use-f-strings"
  then "Use f-strings instead of .format() for better performance (70% confidence)"
  else "Remove print statements in production code (80% confidence)".

(** A diagnostic that renders an entry: it spans the whole line of the
    entry, counted from 0, and carries the rule as its code. *)
Definition describes (document : EditorDocument) (opt : Optimization)
           (d : Diagnostic) : Prop :=
  exists text : string,
    lineAt document (line_number opt - 1) = Some text /\
    1 <= line_number opt /\
    range d = mkRange (line_number opt - 1) 0 (line_number opt - 1)
                      (String.length text) /\
    code d = rule_name opt /\
    source d = "Code Optimizer" /\
    diagnosticSeverity d = ruleSeverity (rule_name opt) /\
    message d = ruleMessage (rule_name opt).

(** Diagnostics left in the collection by an earlier analysis. *)
Definition staleDiagnostic : Diagnostic :=
  {| range := mkRange 4 0 4 10;
     message := "Remove console.log statements in production code (90% confidence)";
     diagnosticSeverity := DiagnosticSeverity.Warning;
     code := "no-console";
     source := "Code Optimizer" |}.

Definition staleEditor : Editor :=
  {| diagnosticCollection := {[ "main.rs" := [staleDiagnostic] ]};
     notifications := [] |}.

(** The files of a small workspace. *)
Definition workspaceFiles : list EditorDocument :=
  [ openDocument scenarioA "a.js";
    openDocument rustSample "main.rs";
    openDocument scenarioC "c.py";
    openDocument {| languageId := "plaintext"; getText := "print(1)" |} "notes.txt" ].

(** The constants each rule writes into its entries. *)
Definition ruleConfidence (rule : string) : Q :=
  if String.eqb rule "use-const" then 0.8%Q
  else if String.eqb rule "no-console" then 0.9%Q
  else if String.eqb rule "use-f-strings" then 0.7%Q
  else 0.8%Q.

Definition ruleSeverityText (rule : string) : string :=
  if String.eqb rule "use-const" || String.eqb rule "use-f-strings"
  then "Info" else "Warning".

Definition ruleExplanation (rule : string) : string :=
  if String.eqb rule "use-const"
  then "Use 'const' for variables that never change"
  else if String.eqb rule "no-console"
  then "Remove console.log statements in production code"
  else if String.eqb rule "use-f-strings"
  then "Use f-strings instead of .format() for better performance"
  else "Remove print statements in production code".

(** ** Proof automation *)

Ltac split_ifs :=
  repeat match goal with
         | |- context [if ?b then _ else _] => destruct b eqn:?
         end.

Create HintDb analysis.
#[local] Hint Constructors emits : analysis.

(** * Proofs *)

(** ** The string primitives *)

Lemma prefix_spec (pat : string) :
  forall s : string,
    String.prefix pat s = true <-> exists rest : string, s = pat +:+ rest.
Proof.
  induction pat as [|a pat IH]; intros s.
  - split; [intros _; now exists s | intros _; now destruct s].
  - destruct s as [|b s]; cbn.
    + split; [discriminate | intros (rest & H); discriminate H].
    + destruct (ascii_dec a b) as [-> | Hne].
      * rewrite IH. split; intros (rest & H); exists rest.
        -- now rewrite H.
        -- now injection H.
      * split; [discriminate|].
        intros (rest & H). injection H as Hb _. now symmetry in Hb.
Qed.

(** [includes] is the substring test. *)
Lemma includes_spec (pat : string) :
  forall s : string,
    includes pat s = true <->
    exists before after : string, s = before +:+ pat +:+ after.
Proof.
  induction s as [|c s IH]; cbn [includes].
  - rewrite orb_false_r, prefix_spec. split.
    + intros (rest & H). now exists EmptyString, rest.
    + intros ([|c before] & after & H); [now exists after | discriminate H].
  - rewrite orb_true_iff, prefix_spec, IH. split.
    + intros [(rest & H) | (before & after & H)].
      * now exists EmptyString, rest.
      * exists (String c before), after. cbn. now rewrite H.
    + intros ([|c' before] & after & H).
      * left. now exists after.
      * right. exists before, after. now injection H.
Qed.

Lemma split_nonempty (sep : ascii) (s : string) : split sep s <> [].
Proof.
  destruct s as [|c s]; cbn; [discriminate|].
  destruct (Ascii.eqb c sep); [discriminate|].
  destruct (split sep s); discriminate.
Qed.

(** Joining the pieces with the separator gives the text back, so the
    pieces are the lines of the text, in order. *)
Lemma concat_split (sep : ascii) (s : string) :
  String.concat (String sep EmptyString) (split sep s) = s.
Proof.
  induction s as [|c s IH]; cbn [split]; [reflexivity|].
  pose proof (split_nonempty sep s) as Hne.
  destruct (Ascii.eqb c sep) eqn:Hc.
  - apply Ascii.eqb_eq in Hc. subst c.
    destruct (split sep s) as [|piece pieces]; [contradiction|].
    cbn [String.concat]. cbn [String.concat] in IH. now rewrite IH.
  - destruct (split sep s) as [|piece pieces]; [contradiction|].
    destruct pieces as [|piece' pieces]; exact (f_equal (String c) IH).
Qed.

(** No piece contains the separator. *)
Lemma split_pieces (sep : ascii) (s : string) :
  Forall (fun piece => includes (String sep EmptyString) piece = false)
         (split sep s).
Proof.
  induction s as [|c s IH]; cbn [split].
  - constructor; [reflexivity | constructor].
  - destruct (Ascii.eqb c sep) eqn:Hc.
    + constructor; [reflexivity | exact IH].
    + assert (Hhead : forall piece : string,
                 includes (String sep EmptyString) piece = false ->
                 includes (String sep EmptyString) (String c piece) = false).
      { intros piece Hp. cbn [includes String.prefix].
        destruct (ascii_dec sep c) as [-> | _]; [|exact Hp].
        rewrite Ascii.eqb_refl in Hc. discriminate Hc. }
      destruct (split sep s) as [|piece pieces].
      * constructor; [now apply Hhead | constructor].
      * inversion IH as [|? ? Hp Hps]; subst.
        constructor; [now apply Hhead | exact Hps].
Qed.

(** ** Lemmas on the loop *)

Lemma lineOptimizations_eq (languageId line : string) (index : nat) :
  lineOptimizations languageId line index =
    (if isJavaScriptLike languageId
     then (if useConstGuard line then [useConst line index] else [])
          ++ (if includes "console.log(" line then [noConsole line index] else [])
     else [])
    ++ (if isPython languageId
        then (if includes ".format(" line then [useFStrings line index] else [])
             ++ (if includes "print(" line then [noPrintDebug line index] else [])
        else []).
Proof.
  unfold lineOptimizations, analyzeLine, isJavaScriptLike, isPython,
    useConstGuard, push.
  split_ifs; reflexivity.
Qed.

Lemma analyzeLine_app (languageId line : string) (index : nat)
      (optimizations : list Optimization) :
  analyzeLine languageId line index optimizations =
    optimizations ++ lineOptimizations languageId line index.
Proof.
  unfold lineOptimizations, analyzeLine, push.
  split_ifs; cbn [app]; rewrite <- ?app_assoc, ?app_nil_r; reflexivity.
Qed.

Lemma forEach_collect (languageId : string) (lines : list string) :
  forall (index : nat) (optimizations : list Optimization),
    forEach (analyzeLine languageId) lines index optimizations =
      optimizations ++ collect languageId lines index.
Proof.
  induction lines as [|line rest IH]; intros index optimizations; cbn.
  - now rewrite app_nil_r.
  - rewrite IH, analyzeLine_app, <- app_assoc. reflexivity.
Qed.

Lemma simulateRustAnalysis_eq (config : WorkspaceConfiguration)
      (document : TextDocument) :
  simulateRustAnalysis config document =
    List.filter (passes (get (minimumConfidence config) 0.6%Q))
                (candidates document).
Proof.
  unfold simulateRustAnalysis, candidates.
  now rewrite forEach_collect.
Qed.

Lemma In_collect (languageId : string) (o : Optimization) (lines : list string) :
  forall index : nat,
    In o (collect languageId lines index) <->
    exists (i : nat) (line : string),
      nth_error lines i = Some line /\
      In o (lineOptimizations languageId line (index + i)).
Proof.
  induction lines as [|line rest IH]; intros index; cbn [collect].
  - split; [intros [] | intros (i & line & H & _); destruct i; discriminate].
  - rewrite in_app_iff, IH. split.
    + intros [H | (i & l & Hl & H)].
      * exists 0, line. rewrite Nat.add_0_r. now split.
      * exists (S i), l. rewrite Nat.add_succ_r. now split.
    + intros (i & l & Hl & H). destruct i as [|i]; cbn in Hl.
      * injection Hl as <-. rewrite Nat.add_0_r in H. now left.
      * right. exists i, l. rewrite Nat.add_succ_r in H. now split.
Qed.

(** ** What a visit emits *)

Lemma In_lineOptimizations (languageId line : string) (index : nat)
      (o : Optimization) :
  In o (lineOptimizations languageId line index) <-> emits languageId line index o.
Proof.
  rewrite lineOptimizations_eq. split.
  - intros H.
    destruct (isJavaScriptLike languageId) eqn:Hjs,
             (isPython languageId) eqn:Hpy,
             (useConstGuard line) eqn:Hlet,
             (includes "console.log(" line) eqn:Hlog,
             (includes ".format(" line) eqn:Hfmt,
             (includes "print(" line) eqn:Hprint;
      cbn in H; intuition (subst; auto with analysis).
  - intros H; destruct H as [Hl Hg | Hl Hg | Hl Hg | Hl Hg];
      rewrite Hl, Hg; rewrite !in_app_iff; cbn; tauto.
Qed.

(** An element of the array before filtering comes from one line, at the
    index of that line. *)
Lemma In_candidates (document : TextDocument) (o : Optimization) :
  In o (candidates document) <->
  exists (i : nat) (line : string),
    nth_error (split LF (getText document)) i = Some line /\
    emits (languageId document) line i o.
Proof.
  unfold candidates. rewrite In_collect.
  split; intros (i & line & Hl & H); exists i, line; split; auto;
    cbn in *; now apply In_lineOptimizations.
Qed.

Lemma In_simulateRustAnalysis (config : WorkspaceConfiguration)
      (document : TextDocument) (o : Optimization) :
  In o (simulateRustAnalysis config document) <->
  In o (candidates document) /\
  (get (minimumConfidence config) 0.6%Q <= confidence o)%Q.
Proof.
  rewrite simulateRustAnalysis_eq, filter_In.
  unfold passes. now rewrite Qle_bool_iff.
Qed.

(** Every confidence the analysis assigns is one of three literals. *)
Lemma emits_confidence (languageId line : string) (index : nat) (o : Optimization) :
  emits languageId line index o ->
  confidence o = 0.7%Q \/ confidence o = 0.8%Q \/ confidence o = 0.9%Q.
Proof. intros []; cbn; auto. Qed.

Lemma emits_line_number (languageId line : string) (index : nat) (o : Optimization) :
  emits languageId line index o -> line_number o = index + 1.
Proof. now intros []. Qed.

Lemma emits_original_code (languageId line : string) (index : nat) (o : Optimization) :
  emits languageId line index o -> original_code o = trim line.
Proof. now intros []. Qed.


(** ** Scenario A *)

(** C1. For the JavaScript text of Scenario A and the default
    configuration (no setting, so the threshold is the default 0.6) the
    analysis returns exactly two entries, in this order: line 1, rule
    use-const, confidence 0.8; line 2, rule no-console, confidence 0.9. *)
Theorem scenarioA_default :
  get (minimumConfidence defaultConfig) 0.6%Q = 0.6%Q /\
  map (fun o => (line_number o, rule_name o, confidence o))
      (simulateRustAnalysis defaultConfig scenarioA)
  = [ (1, "use-const", 0.8%Q); (2, "no-console", 0.9%Q) ] /\
  simulateRustAnalysis defaultConfig scenarioA
  = [ useConst ("let userName = " +:+ dq +:+ "John" +:+ dq +:+ ";") 0;
      noConsole ("console.log(" +:+ dq +:+ "Debug:" +:+ dq +:+ ", userName);") 1 ].
Proof. repeat split. Qed.

(** ** Languages without rules *)

Lemma lineOptimizations_other (languageId line : string) (index : nat) :
  isJavaScriptLike languageId = false ->
  isPython languageId = false ->
  lineOptimizations languageId line index = [].
Proof.
  intros Hjs Hpy. rewrite lineOptimizations_eq, Hjs, Hpy. reflexivity.
Qed.

Lemma collect_other (languageId : string) (lines : list string) :
  isJavaScriptLike languageId = false ->
  isPython languageId = false ->
  forall index : nat, collect languageId lines index = [].
Proof.
  intros Hjs Hpy.
  induction lines as [|line rest IH]; intros index; cbn [collect].
  - reflexivity.
  - now rewrite lineOptimizations_other, IH.
Qed.

(** C3, as the code has it. The language rust is accepted by
    [isSupported], yet the analysis has no rule for it: whatever the text
    and the threshold, a document whose language is rust gets no entry. *)
Theorem rust_yields_nothing (config : WorkspaceConfiguration)
        (document : TextDocument) :
  languageId document = "rust" ->
  isSupported (languageId document) = true /\
  simulateRustAnalysis config document = [].
Proof.
  intros Hrust. rewrite Hrust. split; [reflexivity|].
  rewrite simulateRustAnalysis_eq. unfold candidates.
  rewrite Hrust, collect_other; reflexivity.
Qed.

Lemma rust_yields_nothing_witness :
  languageId rustSample = "rust" /\
  isSupported (languageId rustSample) = true /\
  simulateRustAnalysis (withMinimumConfidence 0%Q defaultConfig) rustSample = [].
Proof.
  split; [reflexivity|].
  apply (rust_yields_nothing (withMinimumConfidence 0%Q defaultConfig) rustSample).
  reflexivity.
Defined.

(** C3 as stated fails: no Rust text containing [.clone()] or [println!(]
    gets an entry, under any configuration. *)
Lemma rust_catalog_absent :
  ~ exists (text : string) (config : WorkspaceConfiguration),
      (includes ".clone()" text = true \/ includes "println!(" text = true) /\
      simulateRustAnalysis config {| languageId := "rust"; getText := text |} <> [].
Proof.
  intros (text & config & _ & Hne). apply Hne.
  rewrite simulateRustAnalysis_eq. unfold candidates. cbn [languageId getText].
  rewrite collect_other; reflexivity.
Qed.

(** ** The language field *)

Lemma emits_language (languageId line : string) (index : nat) (o : Optimization) :
  emits languageId line index o -> language o = ruleLanguage (rule_name o).
Proof. now intros []. Qed.

Lemma emits_typescript (line : string) (index : nat) (o : Optimization) :
  emits "typescript" line index o ->
  (rule_name o = "use-const" \/ rule_name o = "no-console") /\
  language o = "JavaScript".
Proof. intros [H ?|H ?|H ?|H ?]; cbn; auto; discriminate H. Qed.

(** C10. In a TypeScript document every entry of the result is a
    use-const or a no-console entry and its language field is the
    string JavaScript, not TypeScript; in any document the field is the
    constant of the entry's rule. *)
Theorem typescript_entries_say_JavaScript (config : WorkspaceConfiguration)
        (document : TextDocument) (o : Optimization) :
  languageId document = "typescript" ->
  In o (simulateRustAnalysis config document) ->
  (rule_name o = "use-const" \/ rule_name o = "no-console") /\
  language o = "JavaScript" /\
  language o <> "TypeScript" /\
  language o = ruleLanguage (rule_name o).
Proof.
  intros Hts Hin.
  apply In_simulateRustAnalysis in Hin as [Hin _].
  apply In_candidates in Hin as (i & line & _ & Hemit).
  rewrite Hts in Hemit.
  pose proof (emits_language _ _ _ _ Hemit) as Hlang.
  apply emits_typescript in Hemit as [Hrule HJS].
  repeat split; auto. rewrite HJS. discriminate.
Qed.

Lemma typescript_entries_say_JavaScript_witness :
  simulateRustAnalysis defaultConfig typescriptSample
  = [ useConst "let total: number = 0;" 0; noConsole "console.log(total);" 1 ] /\
  language (useConst "let total: number = 0;" 0) = "JavaScript" /\
  language (noConsole "console.log(total);" 1) = "JavaScript".
Proof.
  split; [reflexivity|]. split.
  - apply (typescript_entries_say_JavaScript defaultConfig typescriptSample
             (useConst "let total: number = 0;" 0)).
    + reflexivity.
    + cbn. left. reflexivity.
  - apply (typescript_entries_say_JavaScript defaultConfig typescriptSample
             (noConsole "console.log(total);" 1)).
    + reflexivity.
    + cbn. right. left. reflexivity.
Defined.

(** ** Line fidelity and the range of confidences *)

Lemma confidence_range (o : Optimization) :
  confidence o = 0.7%Q \/ confidence o = 0.8%Q \/ confidence o = 0.9%Q ->
  (0 <= confidence o)%Q /\ (confidence o < 1)%Q.
Proof. intros [-> | [-> | ->]]; split; reflexivity || discriminate. Qed.

(** C8. Every entry of the result has a line number between 1 and the
    number of lines of the text, its original code is that line trimmed,
    and its confidence lies between 0 and 1. *)
Theorem line_fidelity (config : WorkspaceConfiguration)
        (document : TextDocument) (o : Optimization) :
  In o (simulateRustAnalysis config document) ->
  let lines := split LF (getText document) in
  1 <= line_number o <= List.length lines /\
  (exists line : string,
      nth_error lines (line_number o - 1) = Some line /\
      original_code o = trim line) /\
  (0 <= confidence o)%Q /\ (confidence o <= 1)%Q.
Proof.
  intros Hin lines.
  apply In_simulateRustAnalysis in Hin as [Hin _].
  apply In_candidates in Hin as (i & line & Hline & Hemit).
  fold lines in Hline.
  pose proof (emits_line_number _ _ _ _ Hemit) as Hnum.
  assert (Hlt : i < List.length lines)
    by (apply nth_error_Some; rewrite Hline; discriminate).
  split; [lia|]. split.
  - exists line. split.
    + replace (line_number o - 1) with i by lia. exact Hline.
    + eapply emits_original_code; eauto.
  - apply emits_confidence in Hemit. apply confidence_range in Hemit.
    destruct Hemit as [H0 H1]. split; [exact H0 | now apply Qlt_le_weak].
Qed.

Lemma line_fidelity_witness :
  In (noConsole "    console.log(1);  " 1)
     (simulateRustAnalysis defaultConfig paddedSample) /\
  1 <= 2 <= List.length (split LF (getText paddedSample)) /\
  (exists line : string,
      nth_error (split LF (getText paddedSample)) (2 - 1) = Some line /\
      "console.log(1);" = trim line) /\
  (0 <= 0.9)%Q /\ (0.9 <= 1)%Q.
Proof.
  assert (Hin : In (noConsole "    console.log(1);  " 1)
                   (simulateRustAnalysis defaultConfig paddedSample))
    by (cbn; left; reflexivity).
  split; [exact Hin|].
  exact (line_fidelity defaultConfig paddedSample _ Hin).
Defined.

(** ** The threshold *)

Lemma simulateRustAnalysis_withMinimumConfidence (t : Q)
      (config : WorkspaceConfiguration) (document : TextDocument) :
  simulateRustAnalysis (withMinimumConfidence t config) document =
    List.filter (passes t) (candidates document).
Proof. now rewrite simulateRustAnalysis_eq. Qed.

Lemma passes_monotone (t1 t2 : Q) (o : Optimization) :
  (t1 <= t2)%Q -> passes t2 o = true -> passes t1 o = true.
Proof.
  unfold passes. rewrite !Qle_bool_iff. intros H12 H2.
  now apply Qle_trans with t2.
Qed.

Lemma filter_filter_implied {A : Type} (f g : A -> bool) (l : list A) :
  (forall x, In x l -> g x = true -> f x = true) ->
  List.filter g (List.filter f l) = List.filter g l.
Proof.
  intros Himp. induction l as [|x l IH]; cbn; [reflexivity|].
  assert (IH' : List.filter g (List.filter f l) = List.filter g l)
    by (apply IH; intros y Hy; apply Himp; now right).
  destruct (f x) eqn:Hf; cbn.
  - now rewrite IH'.
  - destruct (g x) eqn:Hg; [|exact IH'].
    rewrite (Himp x (or_introl eq_refl) Hg) in Hf. discriminate.
Qed.

(** C5. With thresholds [t1 <= t2], the result for [t2] is the result
    for [t1] with the entries below [t2] removed, so each of its entries
    is in the result for [t1]; and an entry the loop produced is in the
    result for [t] exactly when its confidence is at least [t]. *)
Theorem threshold_monotone (config : WorkspaceConfiguration)
        (document : TextDocument) (t1 t2 : Q) :
  (t1 <= t2)%Q ->
  simulateRustAnalysis (withMinimumConfidence t2 config) document
  = List.filter (passes t2)
      (simulateRustAnalysis (withMinimumConfidence t1 config) document) /\
  incl (simulateRustAnalysis (withMinimumConfidence t2 config) document)
       (simulateRustAnalysis (withMinimumConfidence t1 config) document) /\
  (forall o : Optimization,
      In o (candidates document) ->
      (In o (simulateRustAnalysis (withMinimumConfidence t2 config) document)
       <-> (t2 <= confidence o)%Q)).
Proof.
  intros H12.
  assert (Heq : simulateRustAnalysis (withMinimumConfidence t2 config) document
                = List.filter (passes t2)
                    (simulateRustAnalysis (withMinimumConfidence t1 config) document)).
  { rewrite !simulateRustAnalysis_withMinimumConfidence.
    symmetry. apply filter_filter_implied.
    intros o _. now apply passes_monotone. }
  split; [exact Heq|]. split.
  - intros o Ho. rewrite Heq in Ho. now apply filter_In in Ho.
  - intros o Hcand. rewrite In_simulateRustAnalysis. cbn. tauto.
Qed.

(** Scenario B of the specification: raising the threshold to 0.85
    removes the use-const entry of Scenario A. *)
Lemma threshold_monotone_witness :
  (0.6 <= 0.85)%Q /\
  simulateRustAnalysis (withMinimumConfidence 0.85%Q defaultConfig) scenarioA
  = List.filter (passes 0.85%Q)
      (simulateRustAnalysis (withMinimumConfidence 0.6%Q defaultConfig) scenarioA) /\
  incl (simulateRustAnalysis (withMinimumConfidence 0.85%Q defaultConfig) scenarioA)
       (simulateRustAnalysis (withMinimumConfidence 0.6%Q defaultConfig) scenarioA) /\
  (forall o : Optimization,
      In o (candidates scenarioA) ->
      (In o (simulateRustAnalysis (withMinimumConfidence 0.85%Q defaultConfig) scenarioA)
       <-> (0.85 <= confidence o)%Q)).
Proof.
  assert (H : (0.6 <= 0.85)%Q) by (vm_compute; discriminate).
  split; [exact H|].
  exact (threshold_monotone defaultConfig scenarioA 0.6%Q 0.85%Q H).
Defined.

Lemma clamp01_range (t : Q) : (0 <= clamp01 t)%Q /\ (clamp01 t <= 1)%Q.
Proof.
  unfold clamp01.
  destruct (Qle_bool t 0) eqn:H0; [split; discriminate|].
  destruct (Qle_bool 1 t) eqn:H1; [split; discriminate|].
  split.
  - apply Qnot_lt_le. intros Hlt. apply Qlt_le_weak in Hlt.
    apply Qle_bool_iff in Hlt. congruence.
  - apply Qnot_lt_le. intros Hlt. apply Qlt_le_weak in Hlt.
    apply Qle_bool_iff in Hlt. congruence.
Qed.

Lemma clamp01_inside (t : Q) : (0 <= t)%Q -> (t <= 1)%Q -> (clamp01 t == t)%Q.
Proof.
  intros H0 H1. unfold clamp01.
  destruct (Qle_bool t 0) eqn:E0.
  - apply Qle_bool_iff in E0. now apply Qle_antisym.
  - destruct (Qle_bool 1 t) eqn:E1; [|reflexivity].
    apply Qle_bool_iff in E1. now apply Qle_antisym.
Qed.

(** [clamp01] is the usual clamp, the larger of 0 and the smaller of 1
    and the threshold. *)
Lemma clamp01_Qmax (t : Q) : (clamp01 t == Qmax 0 (Qmin 1 t))%Q.
Proof.
  unfold clamp01.
  destruct (Qle_bool t 0) eqn:E0.
  - apply Qle_bool_iff in E0. symmetry. apply Q.max_l.
    apply Qle_trans with t; [apply Q.le_min_r | exact E0].
  - assert (H0 : (0 < t)%Q).
    { apply Qnot_le_lt. intros H. apply Qle_bool_iff in H. congruence. }
    destruct (Qle_bool 1 t) eqn:E1.
    + apply Qle_bool_iff in E1. rewrite (Q.min_l 1 t E1).
      symmetry. apply Q.max_r. discriminate.
    + assert (H1 : (t < 1)%Q).
      { apply Qnot_le_lt. intros H. apply Qle_bool_iff in H. congruence. }
      rewrite (Q.min_r 1 t (Qlt_le_weak _ _ H1)).
      symmetry. apply Q.max_r. now apply Qlt_le_weak.
Qed.

Lemma passes_clamp01 (t : Q) (o : Optimization) :
  (0 <= confidence o)%Q -> (confidence o < 1)%Q ->
  passes (clamp01 t) o = passes t o.
Proof.
  intros Hlo Hhi. unfold passes, clamp01.
  destruct (Qle_bool t 0) eqn:E0.
  - apply Qle_bool_iff in E0.
    transitivity true; [|symmetry]; apply Qle_bool_iff; [exact Hlo|].
    now apply Qle_trans with 0%Q.
  - destruct (Qle_bool 1 t) eqn:E1; [|reflexivity].
    apply Qle_bool_iff in E1.
    transitivity false; [|symmetry]; apply not_true_is_false;
      rewrite Qle_bool_iff; intros Hle; apply (Qlt_not_le _ _ Hhi).
    + exact Hle.
    + now apply Qle_trans with t.
Qed.

Lemma candidates_loop (document : TextDocument) :
  forEach (analyzeLine (languageId document)) (split LF (getText document)) 0 []
  = candidates document.
Proof. now rewrite forEach_collect. Qed.

(** C6. The analysis is a total function of the threshold, and for every
    threshold, inside the interval from 0 to 1 or not, filtering goes by
    the clamped value: the result is the array built by the loop with
    exactly the entries kept whose confidence is at least the threshold
    clamped to the interval (0 for a negative threshold, 1 for one above
    1), which is also the result for the clamped threshold. *)
Theorem threshold_out_of_range_as_clamped (config : WorkspaceConfiguration)
        (document : TextDocument) (t : Q) :
  let optimizations :=
    forEach (analyzeLine (languageId document)) (split LF (getText document)) 0 [] in
  (0 <= clamp01 t)%Q /\ (clamp01 t <= 1)%Q /\
  (clamp01 t == Qmax 0 (Qmin 1 t))%Q /\
  simulateRustAnalysis (withMinimumConfidence t config) document
  = simulateRustAnalysis (withMinimumConfidence (clamp01 t) config) document /\
  simulateRustAnalysis (withMinimumConfidence t config) document
  = List.filter (fun opt => Qle_bool (clamp01 t) (confidence opt)) optimizations /\
  (forall opt : Optimization,
      In opt (simulateRustAnalysis (withMinimumConfidence t config) document) <->
      In opt optimizations /\ (clamp01 t <= confidence opt)%Q).
Proof.
  intros optimizations.
  assert (Hloop : optimizations = candidates document) by apply candidates_loop.
  assert (Hclamped :
            simulateRustAnalysis (withMinimumConfidence t config) document
            = List.filter (fun opt => Qle_bool (clamp01 t) (confidence opt))
                          optimizations).
  { rewrite simulateRustAnalysis_withMinimumConfidence, Hloop.
    apply filter_ext_in. intros o Ho. symmetry.
    apply In_candidates in Ho as (i & line & _ & Hemit).
    apply emits_confidence, confidence_range in Hemit.
    now apply passes_clamp01. }
  split; [apply clamp01_range|]. split; [apply clamp01_range|].
  split; [apply clamp01_Qmax|]. split; [|split].
  - rewrite Hclamped, simulateRustAnalysis_withMinimumConfidence, Hloop.
    reflexivity.
  - exact Hclamped.
  - intros opt. rewrite Hclamped, filter_In. now rewrite Qle_bool_iff.
Qed.

(** Scenario A with a threshold of 2.5 and with one of -3: the first is
    treated as 1 and keeps nothing, the second as 0 and keeps both
    entries of the loop. *)
Lemma threshold_out_of_range_as_clamped_witness :
  (clamp01 2.5 = 1%Q /\
   simulateRustAnalysis (withMinimumConfidence 2.5%Q defaultConfig) scenarioA
   = List.filter (fun opt => Qle_bool 1 (confidence opt))
       (forEach (analyzeLine "javascript") (split LF scenarioA_text) 0 []) /\
   simulateRustAnalysis (withMinimumConfidence 2.5%Q defaultConfig) scenarioA = []) /\
  (clamp01 (-3) = 0%Q /\
   simulateRustAnalysis (withMinimumConfidence (-3)%Q defaultConfig) scenarioA
   = List.filter (fun opt => Qle_bool 0 (confidence opt))
       (forEach (analyzeLine "javascript") (split LF scenarioA_text) 0 []) /\
   List.length
     (simulateRustAnalysis (withMinimumConfidence (-3)%Q defaultConfig) scenarioA) = 2).
Proof.
  split; (split; [reflexivity|]); (split; [|reflexivity]).
  - exact (proj1 (proj2 (proj2 (proj2 (proj2
             (threshold_out_of_range_as_clamped defaultConfig scenarioA 2.5%Q)))))).
  - exact (proj1 (proj2 (proj2 (proj2 (proj2
             (threshold_out_of_range_as_clamped defaultConfig scenarioA (-3)%Q)))))).
Defined.

(** Thresholds below 0 keep every entry and thresholds above 1 keep none,
    as 0 and 1 do. *)
Example threshold_negative :
  clamp01 (-3)%Q = 0%Q /\
  List.length (simulateRustAnalysis (withMinimumConfidence (-3)%Q defaultConfig) scenarioA) = 2.
Proof. split; reflexivity. Qed.

Example threshold_above_one :
  clamp01 2.5%Q = 1%Q /\
  simulateRustAnalysis (withMinimumConfidence 2.5%Q defaultConfig) scenarioA = [].
Proof. split; reflexivity. Qed.

(** ** The setting [enabledRules] *)

(** C2 as stated fails: in Scenario D the rule use-const is set to false
    and its entry is reported all the same. *)
Lemma disabled_rule_still_reported :
  exists (rules : gmap string bool) (o : Optimization),
    enabledRules scenarioD_config = Some rules /\
    rules !! "use-const" = Some false /\
    In o (simulateRustAnalysis scenarioD_config scenarioA) /\
    rule_name o = "use-const".
Proof.
  exists {[ "use-const" := false ]}, (useConst (String.append "let userName = " (String.append dq (String.append "John" (String.append dq ";")))) 0).
  split; [reflexivity|]. split; [apply lookup_singleton_eq|].
  split; [|reflexivity]. cbn. left. reflexivity.
Qed.

(** C2, as the code has it. The analysis reads one setting, the
    threshold: two configurations that agree on it give the same result,
    whatever their enabled rules say. *)
Theorem enabledRules_not_consulted (config config' : WorkspaceConfiguration)
        (document : TextDocument) :
  minimumConfidence config = minimumConfidence config' ->
  simulateRustAnalysis config document = simulateRustAnalysis config' document.
Proof.
  intros Hmin. rewrite !simulateRustAnalysis_eq. now rewrite Hmin.
Qed.

Lemma enabledRules_not_consulted_witness :
  showConfig_enabledRulesCount scenarioD_config = 1 /\
  simulateRustAnalysis scenarioD_config scenarioA
  = simulateRustAnalysis defaultConfig scenarioA.
Proof.
  split; [reflexivity|].
  apply (enabledRules_not_consulted scenarioD_config defaultConfig scenarioA).
  reflexivity.
Defined.

(** ** Order of the result *)

Lemma precedes_irrefl (o : Optimization) : ~ precedes o o.
Proof. unfold precedes. lia. Qed.

Lemma precedes_trans (o1 o2 o3 : Optimization) :
  precedes o1 o2 -> precedes o2 o3 -> precedes o1 o3.
Proof. unfold precedes. lia. Qed.

Lemma precedes_total (o1 o2 : Optimization) :
  precedes o1 o2 \/ precedes o2 o1 \/
  (line_number o1 = line_number o2 /\ ruleRank o1 = ruleRank o2).
Proof. unfold precedes. lia. Qed.

Section Sorting.
Context {A : Type} (R : A -> A -> Prop).

Lemma StronglySorted_append (l1 l2 : list A) :
  StronglySorted R l1 -> StronglySorted R l2 ->
  (forall x y, In x l1 -> In y l2 -> R x y) ->
  StronglySorted R (l1 ++ l2).
Proof.
  intros H1 H2 Hcross. induction H1 as [|x l1 Hs IH Hall]; cbn; [exact H2|].
  constructor.
  - apply IH. intros a b Ha Hb. apply Hcross; [now right | exact Hb].
  - apply Forall_app. split; [exact Hall|].
    apply Forall_forall. intros y Hy. apply Hcross; [now left | exact Hy].
Qed.

Lemma StronglySorted_filter_keeps (f : A -> bool) (l : list A) :
  StronglySorted R l -> StronglySorted R (List.filter f l).
Proof.
  induction 1 as [|x l Hs IH Hall]; cbn; [constructor|].
  destruct (f x); [|exact IH].
  constructor; [exact IH|].
  apply Forall_forall. intros y Hy. apply filter_In in Hy as [Hy _].
  revert y Hy. now apply Forall_forall.
Qed.
End Sorting.

Lemma lineOptimizations_sorted (languageId line : string) (index : nat) :
  StronglySorted precedes (lineOptimizations languageId line index).
Proof.
  rewrite lineOptimizations_eq.
  split_ifs; cbn [app];
    repeat (constructor; try (right; split; [reflexivity | cbn; lia])).
Qed.

Lemma collect_line_numbers (languageId : string) (o : Optimization)
      (lines : list string) (index : nat) :
  In o (collect languageId lines index) -> index < line_number o.
Proof.
  intros H. apply In_collect in H as (i & line & _ & H).
  apply In_lineOptimizations, emits_line_number in H. lia.
Qed.

Lemma collect_sorted (languageId : string) (lines : list string) :
  forall index : nat, StronglySorted precedes (collect languageId lines index).
Proof.
  induction lines as [|line rest IH]; intros index; cbn [collect].
  - constructor.
  - apply StronglySorted_append; [apply lineOptimizations_sorted | apply IH |].
    intros x y Hx Hy. left.
    apply In_lineOptimizations, emits_line_number in Hx.
    apply collect_line_numbers in Hy. lia.
Qed.

Lemma passes_Qeq (t t' : Q) (o : Optimization) :
  (t == t')%Q -> passes t o = passes t' o.
Proof.
  intros Heq. unfold passes.
  destruct (Qle_bool t' (confidence o)) eqn:E.
  - apply Qle_bool_iff. apply Qle_bool_iff in E. now rewrite Heq.
  - apply not_true_is_false. intros H. apply Qle_bool_iff in H.
    rewrite Heq in H. apply Qle_bool_iff in H. congruence.
Qed.

Lemma emits_same_key (languageId line : string) (index : nat)
      (o1 o2 : Optimization) :
  emits languageId line index o1 -> emits languageId line index o2 ->
  ruleRank o1 = ruleRank o2 -> o1 = o2.
Proof.
  intros He1 He2 Hrank.
  destruct He1, He2; cbn in Hrank; try discriminate Hrank; reflexivity.
Qed.

Lemma candidates_same_key (document : TextDocument) (o1 o2 : Optimization) :
  In o1 (candidates document) -> In o2 (candidates document) ->
  line_number o1 = line_number o2 -> ruleRank o1 = ruleRank o2 -> o1 = o2.
Proof.
  intros H1 H2 Hline Hrank.
  apply In_candidates in H1 as (i1 & l1 & Hl1 & He1).
  apply In_candidates in H2 as (i2 & l2 & Hl2 & He2).
  rewrite (emits_line_number _ _ _ _ He1), (emits_line_number _ _ _ _ He2) in Hline.
  assert (i1 = i2) by lia. subst i2.
  assert (l1 = l2) by congruence. subst l2.
  eapply emits_same_key; eauto.
Qed.

(** C7. The result is strictly increasing for the order "line number,
    then position of the rule in the callback"; that order is total on
    the entries of a result (two entries are equal or one precedes the
    other); and the result is a function of the language, the text and
    the value of the threshold alone, so equal inputs give the same
    entries in the same order. *)
Theorem result_sorted_and_determined (config config' : WorkspaceConfiguration)
        (document document' : TextDocument) :
  languageId document = languageId document' ->
  getText document = getText document' ->
  (get (minimumConfidence config) 0.6 == get (minimumConfidence config') 0.6)%Q ->
  StronglySorted precedes (simulateRustAnalysis config document) /\
  (forall o1 o2 : Optimization,
      In o1 (simulateRustAnalysis config document) ->
      In o2 (simulateRustAnalysis config document) ->
      precedes o1 o2 \/ o1 = o2 \/ precedes o2 o1) /\
  simulateRustAnalysis config document = simulateRustAnalysis config' document'.
Proof.
  intros Hlang Htext Hmin. split; [|split].
  - rewrite simulateRustAnalysis_eq.
    apply StronglySorted_filter_keeps, collect_sorted.
  - intros o1 o2 H1 H2.
    apply In_simulateRustAnalysis in H1 as [H1 _].
    apply In_simulateRustAnalysis in H2 as [H2 _].
    destruct (precedes_total o1 o2) as [H | [H | [Hl Hr]]]; auto.
    right; left. now apply (candidates_same_key document).
  - rewrite !simulateRustAnalysis_eq. unfold candidates.
    rewrite <- Hlang, <- Htext.
    apply filter_ext. intros o. now apply passes_Qeq.
Qed.

Lemma result_sorted_and_determined_witness :
  map (fun o => (line_number o, rule_name o))
      (simulateRustAnalysis defaultConfig twoRulesSample)
  = [ (1, "no-console"); (2, "use-const"); (2, "no-console") ] /\
  StronglySorted precedes (simulateRustAnalysis defaultConfig twoRulesSample) /\
  (forall o1 o2 : Optimization,
      In o1 (simulateRustAnalysis defaultConfig twoRulesSample) ->
      In o2 (simulateRustAnalysis defaultConfig twoRulesSample) ->
      precedes o1 o2 \/ o1 = o2 \/ precedes o2 o1) /\
  simulateRustAnalysis defaultConfig twoRulesSample
  = simulateRustAnalysis (withMinimumConfidence (3 # 5) scenarioD_config) twoRulesSample.
Proof.
  split; [reflexivity|].
  apply (result_sorted_and_determined defaultConfig
           (withMinimumConfidence (3 # 5) scenarioD_config)
           twoRulesSample twoRulesSample);
    [reflexivity | reflexivity | vm_compute; reflexivity].
Defined.

(** ** The rule use-const *)

Lemma emits_useConst_inv (languageId line : string) (index : nat) (o : Optimization) :
  emits languageId line index o -> rule_name o = "use-const" ->
  o = useConst line index /\
  isJavaScriptLike languageId = true /\ useConstGuard line = true.
Proof. intros [] Hname; try discriminate Hname; auto. Qed.

(** A use-const entry for line [n + 1] exists exactly when the language
    is JavaScript or TypeScript, the threshold is at most 0.8 and the
    text of that line passes the guard. *)
Lemma useConst_entry_iff (config : WorkspaceConfiguration)
      (document : TextDocument) (n : nat) :
  (exists o : Optimization,
      In o (simulateRustAnalysis config document) /\
      rule_name o = "use-const" /\ line_number o = n + 1) <->
  (isJavaScriptLike (languageId document) = true /\
   (get (minimumConfidence config) 0.6 <= 0.8)%Q /\
   exists line : string,
     nth_error (split LF (getText document)) n = Some line /\
     useConstGuard line = true).
Proof.
  split.
  - intros (o & Hin & Hname & Hnum).
    apply In_simulateRustAnalysis in Hin as [Hin Hconf].
    apply In_candidates in Hin as (i & line & Hline & Hemit).
    destruct (emits_useConst_inv _ _ _ _ Hemit Hname) as (-> & Hjs & Hguard).
    cbn in Hnum, Hconf. assert (i = n) by lia. subst i.
    split; [exact Hjs|]. split; [exact Hconf|]. now exists line.
  - intros (Hjs & Hconf & line & Hline & Hguard).
    exists (useConst line n). split; [|split; reflexivity].
    apply In_simulateRustAnalysis. split; [|exact Hconf].
    apply In_candidates. exists n, line. split; [exact Hline|].
    now constructor.
Qed.

(** C4 as stated fails: [count] is reassigned on line 2, and line 1 gets
    a use-const entry all the same. *)
Lemma reassigned_binding_still_flagged :
  split LF (getText reassignedSample) = ["let count = 0;"; "count = count + 1;"] /\
  simulateRustAnalysis defaultConfig reassignedSample
  = [ useConst "let count = 0;" 0 ] /\
  rule_name (useConst "let count = 0;" 0) = "use-const" /\
  line_number (useConst "let count = 0;" 0) = 1.
Proof. repeat split. Qed.

(** C4, as the code has it. Whether line [n + 1] gets a use-const entry
    is decided by the text of that line alone: it does when the line
    contains [let ] and [=] and does not contain [let i] (and the
    threshold is at most 0.8, in a JavaScript or TypeScript document).
    No other line is looked at, so a later reassignment changes
    nothing. *)
Theorem useConst_decided_by_line (config : WorkspaceConfiguration)
        (document : TextDocument) (n : nat) (line : string) :
  isJavaScriptLike (languageId document) = true ->
  nth_error (split LF (getText document)) n = Some line ->
  ((exists o : Optimization,
       In o (simulateRustAnalysis config document) /\
       rule_name o = "use-const" /\ line_number o = n + 1) <->
   (includes "let " line = true /\ includes "=" line = true /\
    includes "let i" line = false /\
    (get (minimumConfidence config) 0.6 <= 0.8)%Q)).
Proof.
  intros Hjs Hline. rewrite useConst_entry_iff. unfold useConstGuard.
  split.
  - intros (_ & Hconf & line' & Hline' & Hguard).
    assert (line' = line) by congruence. subst line'.
    apply andb_prop in Hguard as [Hguard Hneg].
    apply andb_prop in Hguard as [Hlet Heq].
    apply negb_true_iff in Hneg. auto.
  - intros (Hlet & Heq & Hneg & Hconf).
    split; [exact Hjs|]. split; [exact Hconf|].
    exists line. split; [exact Hline|].
    now rewrite Hlet, Heq, Hneg.
Qed.

Lemma useConst_decided_by_line_witness :
  (exists o : Optimization,
      In o (simulateRustAnalysis defaultConfig reassignedSample) /\
      rule_name o = "use-const" /\ line_number o = 0 + 1) <->
  (includes "let " "let count = 0;" = true /\
   includes "=" "let count = 0;" = true /\
   includes "let i" "let count = 0;" = false /\
   (get (minimumConfidence defaultConfig) 0.6 <= 0.8)%Q).
Proof.
  apply (useConst_decided_by_line defaultConfig reassignedSample 0 "let count = 0;");
    reflexivity.
Defined.

(** C9. A line that contains [let i] never gets a use-const entry,
    whatever else it contains: so a binding whose name begins with the
    letter i is never flagged. A JavaScript or TypeScript line that
    contains [let ] and [=] and no [let i] does get one (threshold at
    most 0.8). *)
Theorem let_i_suppresses_useConst (config : WorkspaceConfiguration)
        (document : TextDocument) (n : nat) (line : string) :
  nth_error (split LF (getText document)) n = Some line ->
  (includes "let i" line = true ->
   ~ exists o : Optimization,
       In o (simulateRustAnalysis config document) /\
       rule_name o = "use-const" /\ line_number o = n + 1) /\
  (isJavaScriptLike (languageId document) = true ->
   (get (minimumConfidence config) 0.6 <= 0.8)%Q ->
   includes "let " line = true ->
   includes "=" line = true ->
   includes "let i" line = false ->
   exists o : Optimization,
     In o (simulateRustAnalysis config document) /\
     rule_name o = "use-const" /\ line_number o = n + 1).
Proof.
  intros Hline. rewrite useConst_entry_iff. split.
  - intros Hi (_ & _ & line' & Hline' & Hguard).
    assert (line' = line) by congruence. subst line'.
    unfold useConstGuard in Hguard. rewrite Hi in Hguard.
    rewrite andb_false_r in Hguard. discriminate Hguard.
  - intros Hjs Hconf Hlet Heq Hneg.
    split; [exact Hjs|]. split; [exact Hconf|].
    exists line. split; [exact Hline|].
    unfold useConstGuard. now rewrite Hlet, Heq, Hneg.
Qed.

Example bindingsSample_result :
  simulateRustAnalysis defaultConfig bindingsSample
  = [ useConst "let count = 0;" 2 ].
Proof. reflexivity. Qed.

Lemma let_i_suppresses_useConst_witness :
  (includes "let i" "let index = 0;" = true /\
   ~ exists o : Optimization,
       In o (simulateRustAnalysis defaultConfig bindingsSample) /\
       rule_name o = "use-const" /\ line_number o = 0 + 1) /\
  (includes "let i" "let items = [];" = true /\
   ~ exists o : Optimization,
       In o (simulateRustAnalysis defaultConfig bindingsSample) /\
       rule_name o = "use-const" /\ line_number o = 1 + 1) /\
  (includes "let i" "let count = 0;" = false /\
   exists o : Optimization,
     In o (simulateRustAnalysis defaultConfig bindingsSample) /\
     rule_name o = "use-const" /\ line_number o = 2 + 1).
Proof.
  assert (Hconf : (get (minimumConfidence defaultConfig) 0.6 <= 0.8)%Q)
    by (vm_compute; discriminate).
  split; [|split]; (split; [reflexivity|]).
  - apply (let_i_suppresses_useConst defaultConfig bindingsSample 0
             "let index = 0;" eq_refl). reflexivity.
  - apply (let_i_suppresses_useConst defaultConfig bindingsSample 1
             "let items = [];" eq_refl). reflexivity.
  - apply (let_i_suppresses_useConst defaultConfig bindingsSample 2
             "let count = 0;" eq_refl); try reflexivity. exact Hconf.
Defined.

(** * Further properties of the analysis *)

(** ** Languages with rules *)

(** X1. Only a document whose language identifier is javascript,
    typescript or python can get entries; each of these is a supported
    language, so the gate of [analyzeDocument] never hides an entry. *)
Theorem entries_only_for_rule_languages (config : WorkspaceConfiguration)
        (document : TextDocument) :
  simulateRustAnalysis config document <> [] ->
  (languageId document = "javascript" \/ languageId document = "typescript" \/
   languageId document = "python") /\
  isSupported (languageId document) = true.
Proof.
  intros Hne.
  destruct (isJavaScriptLike (languageId document)) eqn:Hjs.
  - unfold isJavaScriptLike in Hjs. apply orb_prop in Hjs as [H | H];
      apply String.eqb_eq in H; rewrite H; split; auto.
  - destruct (isPython (languageId document)) eqn:Hpy.
    + apply String.eqb_eq in Hpy. rewrite Hpy. split; auto.
    + exfalso. apply Hne. rewrite simulateRustAnalysis_eq. unfold candidates.
      now rewrite collect_other.
Qed.

Lemma entries_only_for_rule_languages_witness :
  (languageId scenarioC = "javascript" \/ languageId scenarioC = "typescript" \/
   languageId scenarioC = "python") /\
  isSupported (languageId scenarioC) = true.
Proof.
  apply (entries_only_for_rule_languages defaultConfig scenarioC).
  cbn. discriminate.
Defined.

(** ** Size of the result *)




(** ** Bands of the threshold *)

(** X3. A threshold of at most 0.7 filters nothing: the result is the
    whole array of the loop. The default 0.6 is such a threshold. *)
Theorem low_threshold_keeps_all (config : WorkspaceConfiguration)
        (document : TextDocument) :
  (get (minimumConfidence config) 0.6 <= 0.7)%Q ->
  simulateRustAnalysis config document = candidates document.
Proof.
  intros Hlow. rewrite simulateRustAnalysis_eq.
  apply forallb_filter_id. apply forallb_forall. intros o Ho.
  apply In_candidates in Ho as (i & line & _ & Hemit).
  apply Qle_bool_iff. eapply Qle_trans; [exact Hlow|].
  destruct (emits_confidence _ _ _ _ Hemit) as [-> | [-> | ->]]; discriminate.
Qed.

Lemma low_threshold_keeps_all_witness :
  simulateRustAnalysis defaultConfig scenarioC = candidates scenarioC.
Proof.
  apply (low_threshold_keeps_all defaultConfig scenarioC).
  vm_compute. discriminate.
Defined.

(** X4. A threshold above 0.9 filters everything. *)
Theorem high_threshold_drops_all (config : WorkspaceConfiguration)
        (document : TextDocument) :
  (0.9 < get (minimumConfidence config) 0.6)%Q ->
  simulateRustAnalysis config document = [].
Proof.
  intros Hhigh.
  destruct (simulateRustAnalysis config document) as [|o rest] eqn:Hres;
    [reflexivity|].
  assert (Hin : In o (simulateRustAnalysis config document))
    by (rewrite Hres; now left).
  apply In_simulateRustAnalysis in Hin as [Hin Hconf].
  apply In_candidates in Hin as (i & line & _ & Hemit).
  exfalso. apply (Qlt_not_le _ _ Hhigh).
  eapply Qle_trans; [exact Hconf|].
  destruct (emits_confidence _ _ _ _ Hemit) as [-> | [-> | ->]]; discriminate.
Qed.

Lemma high_threshold_drops_all_witness :
  simulateRustAnalysis (withMinimumConfidence 0.95%Q defaultConfig) scenarioA = [].
Proof.
  apply (high_threshold_drops_all (withMinimumConfidence 0.95%Q defaultConfig) scenarioA).
  vm_compute. reflexivity.
Defined.

(** X5. With a threshold above 0.8 and at most 0.9 only no-console
    entries are left, and each no-console entry of the loop is kept. *)
Theorem middle_threshold_keeps_no_console (config : WorkspaceConfiguration)
        (document : TextDocument) (o : Optimization) :
  (0.8 < get (minimumConfidence config) 0.6)%Q ->
  (get (minimumConfidence config) 0.6 <= 0.9)%Q ->
  (In o (simulateRustAnalysis config document) <->
   In o (candidates document) /\ rule_name o = "no-console").
Proof.
  intros Hlo Hhi. rewrite In_simulateRustAnalysis. split.
  - intros [Hin Hconf]. split; [exact Hin|].
    apply In_candidates in Hin as (i & line & _ & Hemit).
    destruct Hemit; cbn in *; try reflexivity; exfalso;
      apply (Qlt_not_le _ _ Hlo); (eapply Qle_trans; [exact Hconf|]);
      discriminate.
  - intros [Hin Hname]. split; [exact Hin|].
    apply In_candidates in Hin as (i & line & _ & Hemit).
    destruct Hemit; cbn in *; try discriminate Hname. exact Hhi.
Qed.

Lemma middle_threshold_keeps_no_console_witness :
  In (noConsole "console.log(0);" 0)
     (simulateRustAnalysis (withMinimumConfidence 0.85%Q defaultConfig) twoRulesSample) <->
  In (noConsole "console.log(0);" 0) (candidates twoRulesSample) /\
  rule_name (noConsole "console.log(0);" 0) = "no-console".
Proof.
  apply (middle_threshold_keeps_no_console
           (withMinimumConfidence 0.85%Q defaultConfig) twoRulesSample).
  - vm_compute. reflexivity.
  - vm_compute. discriminate.
Defined.

(** ** Patterns and the text *)

Lemma string_append_assoc (a b c : string) :
  (a +:+ b) +:+ c = a +:+ (b +:+ c).
Proof.
  induction a as [|x a IH]; [reflexivity | exact (f_equal (String x) IH)].
Qed.

Lemma string_append_nil_r (a : string) : a +:+ EmptyString = a.
Proof.
  induction a as [|x a IH]; [reflexivity | exact (f_equal (String x) IH)].
Qed.

Lemma string_append_length (a b : string) :
  String.length (a +:+ b) = String.length a + String.length b.
Proof.
  induction a as [|x a IH]; [reflexivity | exact (f_equal S IH)].
Qed.

(** A substring of a substring is a substring. *)
Lemma includes_within (pat piece : string) (before after : string) :
  includes pat piece = true ->
  includes pat (before +:+ piece +:+ after) = true.
Proof.
  rewrite !includes_spec. intros (b & a & ->).
  exists (before +:+ b), (a +:+ after).
  now rewrite !string_append_assoc.
Qed.

(** The first piece of a split starts the text. *)
Lemma split_head_prefix (sep : ascii) (s first : string) (pieces : list string) :
  split sep s = first :: pieces ->
  exists after : string, s = first +:+ after.
Proof.
  revert first pieces. induction s as [|c s IH]; cbn [split]; intros first pieces.
  - intros [= <- _]. now exists EmptyString.
  - destruct (Ascii.eqb c sep).
    + intros [= <- _]. now exists (String c s).
    + pose proof (split_nonempty sep s) as Hne.
      destruct (split sep s) as [|p ps]; [contradiction|].
      intros [= <- _]. destruct (IH p ps eq_refl) as (after & ->).
      now exists after.
Qed.

(** Each piece of a split occurs in the text. *)
Lemma split_piece_within (sep : ascii) (piece : string) :
  forall s : string,
    In piece (split sep s) ->
    exists before after : string, s = before +:+ piece +:+ after.
Proof.
  induction s as [|c s IH]; cbn [split].
  - intros [<- | []]. now exists EmptyString, EmptyString.
  - destruct (Ascii.eqb c sep) eqn:Hc.
    + intros [<- | Hin].
      * now exists EmptyString, (String c s).
      * destruct (IH Hin) as (before & after & ->).
        now exists (String c before), after.
    + destruct (split sep s) as [|first pieces] eqn:Hsplit.
      * now destruct (split_nonempty sep s).
      * intros [<- | Hin].
        -- destruct (split_head_prefix _ _ _ _ Hsplit) as (after & ->).
           now exists EmptyString, after.
        -- destruct (IH (or_intror Hin)) as (before & after & ->).
           now exists (String c before), after.
Qed.

Lemma emits_pattern (languageId line : string) (index : nat) (o : Optimization) :
  emits languageId line index o ->
  includes (rulePattern (rule_name o)) line = true.
Proof.
  intros [_ Hg | _ Hg | _ Hg | _ Hg]; cbn; try exact Hg.
  unfold useConstGuard in Hg.
  apply andb_prop in Hg as [Hg _]. now apply andb_prop in Hg as [Hg _].
Qed.

Lemma candidate_pattern (document : TextDocument) (o : Optimization) :
  In o (candidates document) ->
  exists (i : nat) (line : string),
    nth_error (split LF (getText document)) i = Some line /\
    line_number o = i + 1 /\
    includes (rulePattern (rule_name o)) line = true /\
    includes (rulePattern (rule_name o)) (getText document) = true.
Proof.
  intros Hin.
  apply In_candidates in Hin as (i & line & Hline & Hemit).
  pose proof (emits_pattern _ _ _ _ Hemit) as Hpat.
  exists i, line. split; [exact Hline|].
  split; [now apply emits_line_number in Hemit|]. split; [exact Hpat|].
  apply nth_error_In in Hline.
  destruct (split_piece_within _ _ _ Hline) as (before & after & ->).
  now apply includes_within.
Qed.

(** X6. The pattern of the rule of every entry occurs in the line the
    entry points to, and so in the text of the document. *)
Theorem entry_pattern_occurs (config : WorkspaceConfiguration)
        (document : TextDocument) (o : Optimization) :
  In o (simulateRustAnalysis config document) ->
  (exists line : string,
      nth_error (split LF (getText document)) (line_number o - 1) = Some line /\
      includes (rulePattern (rule_name o)) line = true) /\
  includes (rulePattern (rule_name o)) (getText document) = true.
Proof.
  intros Hin.
  apply In_simulateRustAnalysis in Hin as [Hin _].
  apply candidate_pattern in Hin as (i & line & Hline & Hnum & Hpat & Htext).
  rewrite Hnum. replace (i + 1 - 1) with i by lia.
  split; [now exists line | exact Htext].
Qed.

Lemma entry_pattern_occurs_witness :
  (exists line : string,
      nth_error (split LF (getText scenarioC)) (2 - 1) = Some line /\
      includes "print(" line = true) /\
  includes "print(" (getText scenarioC) = true.
Proof.
  apply (entry_pattern_occurs defaultConfig scenarioC (noPrintDebug "print(msg)" 1)).
  cbn. right. left. reflexivity.
Defined.

(** X7. A text in which none of the four patterns occurs gets no entry,
    whatever the language and the threshold; the empty text is one. *)
Theorem text_without_patterns_is_clean (config : WorkspaceConfiguration)
        (document : TextDocument) :
  includes "let " (getText document) = false ->
  includes "console.log(" (getText document) = false ->
  includes ".format(" (getText document) = false ->
  includes "print(" (getText document) = false ->
  simulateRustAnalysis config document = [].
Proof.
  intros Hlet Hlog Hfmt Hprint.
  destruct (simulateRustAnalysis config document) as [|o rest] eqn:Hres;
    [reflexivity|].
  assert (Hin : In o (simulateRustAnalysis config document))
    by (rewrite Hres; now left).
  apply In_simulateRustAnalysis in Hin as [Hin _].
  pose proof Hin as Hcand.
  apply candidate_pattern in Hin as (_ & _ & _ & _ & _ & Htext).
  apply In_candidates in Hcand as (i & line & _ & Hemit).
  destruct Hemit; cbn in Htext; congruence.
Qed.

Lemma text_without_patterns_is_clean_witness :
  simulateRustAnalysis defaultConfig (emptyDocument "javascript") = [] /\
  simulateRustAnalysis defaultConfig (emptyDocument "python") = [].
Proof.
  split.
  - apply (text_without_patterns_is_clean defaultConfig (emptyDocument "javascript"));
      reflexivity.
  - apply (text_without_patterns_is_clean defaultConfig (emptyDocument "python"));
      reflexivity.
Defined.

(** ** The suggested code *)

Lemma replace_unfold (pat rep s : string) :
  replace pat rep s =
    if String.prefix pat s then rep +:+ drop (String.length pat) s
    else match s with
         | EmptyString => EmptyString
         | String c s' => String c (replace pat rep s')
         end.
Proof. now destruct s. Qed.

Lemma drop_append (a b : string) : drop (String.length a) (a +:+ b) = b.
Proof. induction a as [|x a IH]; [now destruct b | exact IH]. Qed.

Lemma replace_at_prefix (pat rep s : string) :
  String.prefix pat s = true ->
  exists rest : string, s = pat +:+ rest /\ replace pat rep s = rep +:+ rest.
Proof.
  intros Hpre. rewrite replace_unfold, Hpre.
  apply prefix_spec in Hpre as (rest & ->).
  exists rest. split; [reflexivity|]. now rewrite drop_append.
Qed.

(** When the pattern occurs, [replace] rewrites its first occurrence and
    nothing else. *)
Lemma replace_present (pat rep : string) :
  forall s : string,
    includes pat s = true ->
    exists before after : string,
      s = before +:+ pat +:+ after /\
      replace pat rep s = before +:+ rep +:+ after /\
      forall k : nat, k < String.length before ->
                      String.prefix pat (drop k s) = false.
Proof.
  induction s as [|c s IH]; intros Hinc; cbn [includes] in Hinc.
  - rewrite orb_false_r in Hinc.
    destruct (replace_at_prefix pat rep _ Hinc) as (rest & Hs & Hrep).
    exists EmptyString, rest. split; [exact Hs|]. split; [exact Hrep|].
    intros k Hk. cbn in Hk. lia.
  - destruct (String.prefix pat (String c s)) eqn:Hpre.
    + destruct (replace_at_prefix pat rep _ Hpre) as (rest & Hs & Hrep).
      exists EmptyString, rest. split; [exact Hs|]. split; [exact Hrep|].
      intros k Hk. cbn in Hk. lia.
    + cbn [orb] in Hinc.
      destruct (IH Hinc) as (before & after & Hs & Hrep & Hfirst).
      exists (String c before), after. split; [|split].
      * exact (f_equal (String c) Hs).
      * rewrite replace_unfold, Hpre. exact (f_equal (String c) Hrep).
      * intros [|k] Hk; [exact Hpre|].
        cbn in Hk |- *. apply Hfirst. lia.
Qed.

(** When the pattern does not occur, [replace] returns the string. *)
Lemma replace_absent (pat rep : string) :
  forall s : string, includes pat s = false -> replace pat rep s = s.
Proof.
  induction s as [|c s IH]; intros Hinc; rewrite replace_unfold;
    cbn [includes] in Hinc; apply orb_false_elim in Hinc as [Hpre Hrest];
    rewrite Hpre; [reflexivity|]. now rewrite IH.
Qed.

Lemma emits_suggested_code (languageId line : string) (index : nat)
      (o : Optimization) :
  emits languageId line index o ->
  suggested_code o
  = replace (rulePattern (rule_name o)) (ruleReplacement (rule_name o)) line.
Proof. now intros []. Qed.

(** X8. The suggested code of every entry is its line with the first
    occurrence of the rule's pattern replaced by the rule's replacement;
    the text before and after that occurrence is kept. *)
Theorem suggested_code_replaces_first_occurrence
        (config : WorkspaceConfiguration) (document : TextDocument)
        (o : Optimization) :
  In o (simulateRustAnalysis config document) ->
  exists line before after : string,
    nth_error (split LF (getText document)) (line_number o - 1) = Some line /\
    line = before +:+ rulePattern (rule_name o) +:+ after /\
    suggested_code o = before +:+ ruleReplacement (rule_name o) +:+ after /\
    forall k : nat,
      k < String.length before ->
      String.prefix (rulePattern (rule_name o)) (drop k line) = false.
Proof.
  intros Hin.
  apply In_simulateRustAnalysis in Hin as [Hin _].
  apply In_candidates in Hin as (i & line & Hline & Hemit).
  pose proof (emits_pattern _ _ _ _ Hemit) as Hpat.
  destruct (replace_present (rulePattern (rule_name o))
              (ruleReplacement (rule_name o)) line Hpat)
    as (before & after & Hsplit & Hrep & Hfirst).
  exists line, before, after.
  rewrite (emits_line_number _ _ _ _ Hemit).
  replace (i + 1 - 1) with i by lia.
  split; [exact Hline|]. split; [exact Hsplit|]. split; [|exact Hfirst].
  now rewrite (emits_suggested_code _ _ _ _ Hemit).
Qed.

Lemma suggested_code_replaces_first_occurrence_witness :
  exists line before after : string,
    nth_error (split LF (getText twoRulesSample)) (2 - 1) = Some line /\
    line = before +:+ "console.log(" +:+ after /\
    "let x = 1; // console.log(x);" = before +:+ "// console.log(" +:+ after /\
    forall k : nat,
      k < String.length before ->
      String.prefix "console.log(" (drop k line) = false.
Proof.
  apply (suggested_code_replaces_first_occurrence defaultConfig twoRulesSample
           (noConsole "let x = 1; console.log(x);" 1)).
  cbn. right. right. left. reflexivity.
Defined.

(** ** Texts one after the other *)

Lemma split_cons (sep c : ascii) (s : string) :
  split sep (String c s) =
    if Ascii.eqb c sep then EmptyString :: split sep s
    else match split sep s with
         | [] => [String c EmptyString]
         | piece :: pieces => String c piece :: pieces
         end.
Proof. reflexivity. Qed.

Lemma split_joinTexts (a b : string) :
  split LF (joinTexts a b) = split LF a ++ split LF b.
Proof.
  unfold joinTexts. induction a as [|c a IH]; [reflexivity|].
  change (String c a +:+ String LF b) with (String c (a +:+ String LF b)).
  rewrite !split_cons, IH.
  destruct (Ascii.eqb c LF); [reflexivity|].
  pose proof (split_nonempty LF a) as Hne.
  now destruct (split LF a).
Qed.

Lemma lineOptimizations_shift (languageId line : string) (index k : nat) :
  lineOptimizations languageId line (index + k)
  = map (shiftLines k) (lineOptimizations languageId line index).
Proof.
  assert (Harith : index + k + 1 = index + 1 + k) by lia.
  rewrite !lineOptimizations_eq.
  split_ifs; cbn [app map]; unfold shiftLines, useConst, noConsole,
    useFStrings, noPrintDebug; cbn; rewrite ?Harith; reflexivity.
Qed.

Lemma collect_shift (languageId : string) (lines : list string) (k : nat) :
  forall index : nat,
    collect languageId lines (index + k)
    = map (shiftLines k) (collect languageId lines index).
Proof.
  induction lines as [|line rest IH]; intros index; cbn [collect];
    [reflexivity|].
  rewrite map_app, <- IH, lineOptimizations_shift. reflexivity.
Qed.

Lemma collect_app (languageId : string) (lines1 lines2 : list string) :
  forall index : nat,
    collect languageId (lines1 ++ lines2) index
    = collect languageId lines1 index
      ++ collect languageId lines2 (index + List.length lines1).
Proof.
  induction lines1 as [|line rest IH]; intros index; cbn [collect app List.length].
  - now rewrite Nat.add_0_r.
  - rewrite IH, <- app_assoc. now rewrite Nat.add_succ_r.
Qed.

Lemma filter_passes_shift (t : Q) (k : nat) (l : list Optimization) :
  List.filter (passes t) (map (shiftLines k) l)
  = map (shiftLines k) (List.filter (passes t) l).
Proof.
  induction l as [|o l IH]; [reflexivity|]. cbn [map List.filter].
  change (passes t (shiftLines k o)) with (passes t o).
  destruct (passes t o); cbn [map]; now rewrite IH.
Qed.

(** X9. Analysing two texts joined by a line feed gives the entries of
    the first text followed by the entries of the second, moved down by
    the number of lines of the first: a line is judged by its own text,
    wherever it stands. *)
Theorem analysis_of_joined_texts (config : WorkspaceConfiguration)
        (languageId : string) (a b : string) :
  simulateRustAnalysis config
    {| languageId := languageId; getText := joinTexts a b |}
  = simulateRustAnalysis config {| languageId := languageId; getText := a |}
    ++ map (shiftLines (List.length (split LF a)))
         (simulateRustAnalysis config {| languageId := languageId; getText := b |}).
Proof.
  rewrite !simulateRustAnalysis_eq. unfold candidates. cbn [Vscode.languageId getText].
  rewrite split_joinTexts, collect_app, filter_app. f_equal.
  rewrite <- filter_passes_shift. f_equal.
  apply (collect_shift languageId (split LF b) (List.length (split LF a)) 0).
Qed.

Example joined_scenarios :
  map (fun o => (line_number o, rule_name o))
      (simulateRustAnalysis defaultConfig
         {| languageId := "javascript";
            getText := joinTexts scenarioA_text scenarioA_text |})
  = [ (1, "use-const"); (2, "no-console"); (3, "use-const"); (4, "no-console") ].
Proof. reflexivity. Qed.

(** ** The original code *)

Lemma allWhiteSpace_append (a b : string) :
  allWhiteSpace (a +:+ b) = allWhiteSpace a && allWhiteSpace b.
Proof.
  induction a as [|c a IH]; [reflexivity|].
  change (allWhiteSpace (String c (a +:+ b))
          = isWhiteSpace c && allWhiteSpace a && allWhiteSpace b).
  cbn [allWhiteSpace]. now rewrite IH, andb_assoc.
Qed.

Lemma trimStart_spec (s : string) :
  exists lead : string,
    s = lead +:+ trimStart s /\ allWhiteSpace lead = true /\
    startsWithWhiteSpace (trimStart s) = false.
Proof.
  induction s as [|c s (lead & Hs & Hlead & Hstart)]; cbn [trimStart].
  - now exists EmptyString.
  - destruct (isWhiteSpace c) eqn:Hc.
    + exists (String c lead). split; [exact (f_equal (String c) Hs)|].
      split; [cbn; now rewrite Hc | exact Hstart].
    + exists EmptyString. repeat split. exact Hc.
Qed.

Lemma trimEnd_spec (s : string) :
  exists trail : string,
    s = trimEnd s +:+ trail /\ allWhiteSpace trail = true /\
    endsWithWhiteSpace (trimEnd s) = false /\
    (startsWithWhiteSpace s = false -> startsWithWhiteSpace (trimEnd s) = false).
Proof.
  induction s as [|c s (trail & Hs & Htrail & Hend & _)]; cbn [trimEnd].
  - now exists EmptyString.
  - destruct (trimEnd s) as [|d rest] eqn:Htrim.
    + change (s = trail) in Hs. subst trail.
      destruct (isWhiteSpace c) eqn:Hc.
      * exists (String c s). repeat split. cbn. now rewrite Hc.
      * exists s. repeat split; auto.
    + exists trail. split; [exact (f_equal (String c) Hs)|].
      split; [exact Htrail|]. split; [exact Hend | auto].
Qed.

(** [trim] removes a run of white space at each end and nothing else. *)
Lemma trim_spec (s : string) :
  exists lead trail : string,
    s = lead +:+ trim s +:+ trail /\
    allWhiteSpace lead = true /\ allWhiteSpace trail = true /\
    startsWithWhiteSpace (trim s) = false /\
    endsWithWhiteSpace (trim s) = false.
Proof.
  unfold trim.
  destruct (trimStart_spec s) as (lead & Hs & Hlead & Hstart).
  destruct (trimEnd_spec (trimStart s)) as (trail & Ht & Htrail & Hend & Hkeep).
  exists lead, trail. split; [|auto].
  rewrite <- Ht. exact Hs.
Qed.

Lemma trimStart_fixed (s : string) :
  startsWithWhiteSpace s = false -> trimStart s = s.
Proof. destruct s as [|c s]; cbn; [reflexivity|]. now intros ->. Qed.

Lemma trimEnd_fixed (s : string) :
  endsWithWhiteSpace s = false -> trimEnd s = s.
Proof.
  induction s as [|c s IH]; [reflexivity|]. cbn [trimEnd endsWithWhiteSpace].
  destruct s as [|d s].
  - cbn. now intros ->.
  - intros H. now rewrite (IH H).
Qed.

Lemma includes_allWhiteSpace (pat s : string) :
  includes pat s = true -> allWhiteSpace s = true -> allWhiteSpace pat = true.
Proof.
  intros Hinc Hall. apply includes_spec in Hinc as (before & after & ->).
  rewrite !allWhiteSpace_append in Hall.
  apply andb_prop in Hall as [_ Hall]. now apply andb_prop in Hall as [Hall _].
Qed.

(** X10. The original code of every entry is its line without the white
    space at both ends: the line is white space, then the original code,
    then white space; the original code neither starts nor ends with
    white space, is not empty, and trimming it again changes nothing. *)
Theorem original_code_is_the_trimmed_line (config : WorkspaceConfiguration)
        (document : TextDocument) (o : Optimization) :
  In o (simulateRustAnalysis config document) ->
  exists line lead trail : string,
    nth_error (split LF (getText document)) (line_number o - 1) = Some line /\
    line = lead +:+ original_code o +:+ trail /\
    allWhiteSpace lead = true /\ allWhiteSpace trail = true /\
    startsWithWhiteSpace (original_code o) = false /\
    endsWithWhiteSpace (original_code o) = false /\
    original_code o <> EmptyString /\
    trim (original_code o) = original_code o.
Proof.
  intros Hin.
  apply In_simulateRustAnalysis in Hin as [Hin _].
  apply In_candidates in Hin as (i & line & Hline & Hemit).
  pose proof (emits_pattern _ _ _ _ Hemit) as Hpat.
  assert (Hnonblank : allWhiteSpace (rulePattern (rule_name o)) = false)
    by (destruct Hemit; reflexivity).
  rewrite (emits_line_number _ _ _ _ Hemit), (emits_original_code _ _ _ _ Hemit).
  replace (i + 1 - 1) with i by lia.
  destruct (trim_spec line) as (lead & trail & Hsplit & Hlead & Htrail & Hs & He).
  exists line, lead, trail.
  split; [exact Hline|]. split; [exact Hsplit|].
  split; [exact Hlead|]. split; [exact Htrail|].
  split; [exact Hs|]. split; [exact He|]. split.
  - intros Hempty. rewrite Hempty in Hsplit.
    assert (Hall : allWhiteSpace line = true).
    { rewrite Hsplit, !allWhiteSpace_append, Hlead, Htrail. reflexivity. }
    pose proof (includes_allWhiteSpace _ _ Hpat Hall). congruence.
  - unfold trim at 1. rewrite (trimStart_fixed _ Hs). now apply trimEnd_fixed.
Qed.

Lemma original_code_is_the_trimmed_line_witness :
  exists line lead trail : string,
    nth_error (split LF (getText paddedSample)) (2 - 1) = Some line /\
    line = lead +:+ "console.log(1);" +:+ trail /\
    allWhiteSpace lead = true /\ allWhiteSpace trail = true /\
    startsWithWhiteSpace "console.log(1);" = false /\
    endsWithWhiteSpace "console.log(1);" = false /\
    "console.log(1);" <> EmptyString /\
    trim "console.log(1);" = "console.log(1);".
Proof.
  apply (original_code_is_the_trimmed_line defaultConfig paddedSample
           (noConsole "    console.log(1);  " 1)).
  cbn. left. reflexivity.
Defined.

(** ** Lines that end with a carriage return *)

Section TrailingUnit.
Variable c : ascii.

Lemma prefix_trailing_unit (pat : string) :
  pat <> EmptyString -> lastUnit pat <> Some c ->
  forall s : string,
    String.prefix pat (s +:+ String c EmptyString) = String.prefix pat s.
Proof.
  induction pat as [|p pat IH]; [contradiction|]. intros _ Hlast s.
  destruct s as [|a s].
  - change (String.prefix (String p pat) (String c EmptyString) = false).
    cbn [String.prefix]. destruct (ascii_dec p c) as [-> | _]; [|reflexivity].
    destruct pat; [exfalso; now apply Hlast | reflexivity].
  - change (String.prefix (String p pat) (String a (s +:+ String c EmptyString))
            = String.prefix (String p pat) (String a s)).
    cbn [String.prefix]. destruct (ascii_dec p a) as [_ | _]; [|reflexivity].
    destruct pat as [|q pat]; [now destruct s|].
    apply IH; [discriminate | exact Hlast].
Qed.

Lemma includes_trailing_unit (pat : string) :
  pat <> EmptyString -> lastUnit pat <> Some c ->
  forall s : string,
    includes pat (s +:+ String c EmptyString) = includes pat s.
Proof.
  intros Hne Hlast. induction s as [|a s IH].
  - pose proof (prefix_trailing_unit pat Hne Hlast EmptyString) as H0.
    change (EmptyString +:+ String c EmptyString) with (String c EmptyString)
      in H0 |- *.
    cbn [includes]. rewrite H0.
    destruct pat; [contradiction | reflexivity].
  - change (includes pat (String a (s +:+ String c EmptyString))
            = includes pat (String a s)).
    cbn [includes]. rewrite IH.
    now rewrite <- (prefix_trailing_unit pat Hne Hlast (String a s)).
Qed.

Lemma drop_trailing_unit (n : nat) :
  forall s : string,
    n <= String.length s ->
    drop n (s +:+ String c EmptyString) = drop n s +:+ String c EmptyString.
Proof.
  induction n as [|n IH]; intros s Hn; [now destruct s|].
  destruct s as [|a s]; cbn in Hn; [lia|].
  apply IH. lia.
Qed.

Lemma replace_trailing_unit (pat rep : string) :
  pat <> EmptyString -> lastUnit pat <> Some c ->
  forall s : string,
    replace pat rep (s +:+ String c EmptyString)
    = replace pat rep s +:+ String c EmptyString.
Proof.
  intros Hne Hlast. induction s as [|a s IH].
  - rewrite (replace_unfold pat rep (EmptyString +:+ String c EmptyString)).
    rewrite (prefix_trailing_unit pat Hne Hlast EmptyString).
    destruct pat; [contradiction | reflexivity].
  - rewrite (replace_unfold pat rep (String a s +:+ String c EmptyString)).
    rewrite (replace_unfold pat rep (String a s)).
    rewrite (prefix_trailing_unit pat Hne Hlast (String a s)).
    destruct (String.prefix pat (String a s)) eqn:Hpre.
    + apply prefix_spec in Hpre as (rest & Hrest).
      rewrite drop_trailing_unit.
      * now rewrite string_append_assoc.
      * rewrite Hrest, string_append_length. lia.
    + change (String a (replace pat rep (s +:+ String c EmptyString))
              = String a (replace pat rep s +:+ String c EmptyString)).
      now rewrite IH.
Qed.

Hypothesis c_white : isWhiteSpace c = true.

Lemma trimEnd_trailing_unit (s : string) :
  trimEnd (s +:+ String c EmptyString) = trimEnd s.
Proof.
  induction s as [|a s IH].
  - change (trimEnd (String c EmptyString) = EmptyString).
    cbn [trimEnd]. now rewrite c_white.
  - change (trimEnd (String a (s +:+ String c EmptyString)) = trimEnd (String a s)).
    cbn [trimEnd]. now rewrite IH.
Qed.

Lemma trim_trailing_unit (s : string) :
  trim (s +:+ String c EmptyString) = trim s.
Proof.
  unfold trim. induction s as [|a s IH].
  - change (trimEnd (trimStart (String c EmptyString)) = EmptyString).
    cbn [trimStart trimEnd]. now rewrite c_white.
  - change (trimEnd (trimStart (String a (s +:+ String c EmptyString)))
            = trimEnd (trimStart (String a s))).
    cbn [trimStart]. destruct (isWhiteSpace a); [exact IH|].
    apply (trimEnd_trailing_unit (String a s)).
Qed.

End TrailingUnit.

(** X11. A carriage return at the end of a line changes neither the
    rules that fire on the line nor the original code of the entries: the
    entries are those of the line without it, with the carriage return
    kept at the end of the suggested code. *)
Theorem trailing_carriage_return (languageId line : string) (index : nat)
        (optimizations : list Optimization) :
  analyzeLine languageId (withCR line) index optimizations
  = optimizations ++ map keepCR (analyzeLine languageId line index []).
Proof.
  rewrite analyzeLine_app. f_equal. fold (lineOptimizations languageId line index).
  rewrite !lineOptimizations_eq. unfold useConstGuard, withCR.
  rewrite !(includes_trailing_unit CR) by discriminate.
  assert (Hlet : keepCR (useConst line index)
                 = useConst (line +:+ String CR EmptyString) index).
  { unfold keepCR, useConst, withCR; cbn.
    now rewrite (trim_trailing_unit CR), (replace_trailing_unit CR). }
  assert (Hlog : keepCR (noConsole line index)
                 = noConsole (line +:+ String CR EmptyString) index).
  { unfold keepCR, noConsole, withCR; cbn.
    now rewrite (trim_trailing_unit CR), (replace_trailing_unit CR). }
  assert (Hfmt : keepCR (useFStrings line index)
                 = useFStrings (line +:+ String CR EmptyString) index).
  { unfold keepCR, useFStrings, withCR; cbn.
    now rewrite (trim_trailing_unit CR), (replace_trailing_unit CR). }
  assert (Hprint : keepCR (noPrintDebug line index)
                   = noPrintDebug (line +:+ String CR EmptyString) index).
  { unfold keepCR, noPrintDebug, withCR; cbn.
    now rewrite (trim_trailing_unit CR), (replace_trailing_unit CR). }
  split_ifs; cbn [app map]; rewrite ?Hlet, ?Hlog, ?Hfmt, ?Hprint; reflexivity.
Qed.

Example windows_line :
  simulateRustAnalysis defaultConfig
    {| languageId := "javascript";
       getText := withCR "let a = 1;" +:+ nl +:+ withCR "console.log(a);" |}
  = [ keepCR (useConst "let a = 1;" 0); keepCR (noConsole "console.log(a);" 1) ].
Proof. reflexivity. Qed.

(** * The diagnostics *)

Example analyzeDocument_scenarioA :
  let '(editor, n) :=
    analyzeDocument defaultConfig (openDocument scenarioA "a.js") emptyEditor in
  n = 2 /\
  notifications editor = [FoundOpportunities 2 "a.js"] /\
  option_map (map (fun d => (range d, diagnosticSeverity d, code d)))
             (diagnosticCollection editor !! "a.js")
  = Some [ (mkRange 0 0 0 22, DiagnosticSeverity.Information, "use-const");
           (mkRange 1 0 1 32, DiagnosticSeverity.Warning, "no-console") ] /\
  option_map (map message) (diagnosticCollection editor !! "a.js")
  = Some [ "Use 'const' for variables that never change (80% confidence)";
           "Remove console.log statements in production code (90% confidence)" ].
Proof. vm_compute. repeat split. Qed.

(** ** The map over the entries *)

Lemma line_index (n : nat) :
  Z.to_nat (Z.max 0 (Z.of_nat n - 1)) = n - 1.
Proof. lia. Qed.

Lemma toDiagnostic_eq (document : EditorDocument) (opt : Optimization) :
  toDiagnostic document opt =
    match lineAt document (line_number opt - 1) with
    | None => None
    | Some text =>
        Some {| range := mkRange (line_number opt - 1) 0 (line_number opt - 1)
                                 (String.length text);
                message := diagnosticMessage opt;
                diagnosticSeverity := getSeverity (severity opt);
                code := rule_name opt;
                source := "Code Optimizer" |}
    end.
Proof. unfold toDiagnostic. now rewrite line_index. Qed.

Lemma mapThrowing_Forall2 {A B : Type} (callback : A -> option B)
      (P : A -> B -> Prop) (l : list A) :
  (forall x, In x l -> exists y, callback x = Some y /\ P x y) ->
  exists ys, mapThrowing callback l = Some ys /\ Forall2 P l ys.
Proof.
  induction l as [|x l IH]; intros Hall; cbn [mapThrowing].
  - exists []. split; [reflexivity | constructor].
  - destruct (Hall x (or_introl eq_refl)) as (y & Hy & HP). rewrite Hy.
    destruct IH as (ys & Hys & HF); [intros z Hz; apply Hall; now right|].
    rewrite Hys. exists (y :: ys). split; [reflexivity | now constructor].
Qed.

Lemma mapThrowing_fails {A B : Type} (callback : A -> option B) (l : list A)
      (x : A) :
  In x l -> callback x = None -> mapThrowing callback l = None.
Proof.
  induction l as [|z l IH]; intros Hin Hx; [contradiction|]. cbn [mapThrowing].
  destruct Hin as [-> | Hin].
  - now rewrite Hx.
  - destruct (callback z); [|reflexivity]. now rewrite (IH Hin Hx).
Qed.

Lemma entry_line_exists (config : WorkspaceConfiguration)
      (document : TextDocument) (o : Optimization) :
  In o (simulateRustAnalysis config document) ->
  exists (i : nat) (line : string),
    nth_error (split LF (getText document)) i = Some line /\
    i < List.length (split LF (getText document)) /\
    line_number o = i + 1 /\
    emits (languageId document) line i o.
Proof.
  intros Hin. apply In_simulateRustAnalysis in Hin as [Hin _].
  apply In_candidates in Hin as (i & line & Hline & Hemit).
  exists i, line. split; [exact Hline|]. split.
  - apply nth_error_Some. rewrite Hline. discriminate.
  - split; [now apply emits_line_number in Hemit | exact Hemit].
Qed.

Lemma emits_diagnostic_fields (languageId line : string) (index : nat)
      (o : Optimization) :
  emits languageId line index o ->
  getSeverity (severity o) = ruleSeverity (rule_name o) /\
  diagnosticMessage o = ruleMessage (rule_name o).
Proof. intros []; split; reflexivity. Qed.

Lemma toDiagnostic_of_entry (config : WorkspaceConfiguration)
      (document : EditorDocument) (o : Optimization) :
  lineAtCovers document ->
  In o (simulateRustAnalysis config (textDocument document)) ->
  exists d : Diagnostic, toDiagnostic document o = Some d /\ describes document o d.
Proof.
  intros Hcover Hin.
  apply entry_line_exists in Hin as (i & line & _ & Hlt & Hnum & Hemit).
  destruct (Hcover i Hlt) as (text & Htext).
  rewrite toDiagnostic_eq. replace (line_number o - 1) with i by lia.
  rewrite Htext. eexists. split; [reflexivity|].
  destruct (emits_diagnostic_fields _ _ _ _ Hemit) as [Hsev Hmsg].
  exists text. unfold describes. cbn.
  replace (line_number o - 1) with i by lia.
  split; [exact Htext|]. split; [lia|]. repeat split; assumption.
Qed.

Lemma mapThrowing_entries (config : WorkspaceConfiguration)
      (document : EditorDocument) :
  lineAtCovers document ->
  exists diagnostics : list Diagnostic,
    mapThrowing (toDiagnostic document)
      (simulateRustAnalysis config (textDocument document)) = Some diagnostics /\
    Forall2 (describes document)
      (simulateRustAnalysis config (textDocument document)) diagnostics.
Proof.
  intros Hcover. apply mapThrowing_Forall2.
  intros o Ho. now apply (toDiagnostic_of_entry config).
Qed.

(** ** [analyzeDocument] *)

Lemma not_supported_no_entries (config : WorkspaceConfiguration)
      (document : TextDocument) :
  isSupported (languageId document) = false ->
  simulateRustAnalysis config document = [].
Proof.
  intros Hsup. rewrite simulateRustAnalysis_eq. unfold candidates.
  unfold isSupported in Hsup. cbn [existsb] in Hsup.
  apply orb_false_elim in Hsup as [Hjs Hsup].
  apply orb_false_elim in Hsup as [Hts Hsup].
  apply orb_false_elim in Hsup as [Hpy _].
  rewrite collect_other; [reflexivity | | exact Hpy].
  unfold isJavaScriptLike. now rewrite Hjs, Hts.
Qed.

Lemma analyzeDocument_supported (config : WorkspaceConfiguration)
      (document : EditorDocument) (editor : Editor)
      (diagnostics : list Diagnostic) :
  isSupported (languageId (textDocument document)) = true ->
  mapThrowing (toDiagnostic document)
    (simulateRustAnalysis config (textDocument document)) = Some diagnostics ->
  let n := List.length (simulateRustAnalysis config (textDocument document)) in
  analyzeDocument config document editor
  = ({| diagnosticCollection :=
          <[uri document := diagnostics]> (diagnosticCollection editor);
        notifications :=
          notifications editor ++
          (if Nat.ltb 0 n then [FoundOpportunities n (fileName document)] else []) |},
     n).
Proof.
  intros Hsup Hmap n. unfold analyzeDocument. rewrite Hsup, Hmap. cbn [negb].
  fold n. destruct (Nat.ltb 0 n); [reflexivity|].
  now rewrite app_nil_r.
Qed.

(** X12. On a supported document whose lines the editor can all
    deliver, [analyzeDocument] does not fail: it returns the number of
    entries of the analysis, stores that many diagnostics under the URI
    of the document, leaves the diagnostics of every other URI as they
    were, and shows one message with the count when there is an entry
    and none otherwise. *)
Theorem analyzeDocument_stores_and_counts (config : WorkspaceConfiguration)
        (document : EditorDocument) (editor : Editor) :
  isSupported (languageId (textDocument document)) = true ->
  lineAtCovers document ->
  let n := List.length (simulateRustAnalysis config (textDocument document)) in
  let editor' := fst (analyzeDocument config document editor) in
  snd (analyzeDocument config document editor) = n /\
  (exists diagnostics : list Diagnostic,
      diagnosticCollection editor' !! uri document = Some diagnostics /\
      List.length diagnostics = n) /\
  (forall other : string,
      other <> uri document ->
      diagnosticCollection editor' !! other = diagnosticCollection editor !! other) /\
  notifications editor'
  = notifications editor ++
    (if Nat.eqb n 0 then [] else [FoundOpportunities n (fileName document)]).
Proof.
  intros Hsup Hcover n editor'.
  destruct (mapThrowing_entries config document Hcover) as (diagnostics & Hmap & HF).
  subst editor'.
  rewrite (analyzeDocument_supported config document editor diagnostics Hsup Hmap).
  fold n. cbn [fst snd diagnosticCollection notifications].
  split; [reflexivity|]. split; [|split].
  - exists diagnostics. split; [apply lookup_insert_eq|].
    symmetry. exact (Forall2_length HF).
  - intros other Hne. now apply lookup_insert_ne.
  - now destruct n.
Qed.

Lemma analyzeDocument_stores_and_counts_witness :
  snd (analyzeDocument defaultConfig (openDocument scenarioC "c.py") staleEditor) = 2 /\
  (exists diagnostics : list Diagnostic,
      diagnosticCollection
        (fst (analyzeDocument defaultConfig (openDocument scenarioC "c.py") staleEditor))
      !! "c.py" = Some diagnostics /\
      List.length diagnostics = 2) /\
  (forall other : string,
      other <> "c.py" ->
      diagnosticCollection
        (fst (analyzeDocument defaultConfig (openDocument scenarioC "c.py") staleEditor))
      !! other = diagnosticCollection staleEditor !! other) /\
  notifications
    (fst (analyzeDocument defaultConfig (openDocument scenarioC "c.py") staleEditor))
  = [FoundOpportunities 2 "c.py"].
Proof.
  apply (analyzeDocument_stores_and_counts defaultConfig
           (openDocument scenarioC "c.py") staleEditor).
  - reflexivity.
  - intros i Hi. cbn [openDocument lineAt textDocument] in Hi |- *.
    apply nth_error_Some in Hi.
    destruct (nth_error (split LF (getText scenarioC)) i) as [text|];
      [now exists text | contradiction].
Defined.

(** X13. Under the same conditions the stored diagnostics render the
    entries one by one, in order: each spans the whole of the entry's
    line, counted from 0 (the guard against a negative line is never
    needed), carries the rule as its code, the severity Information or
    Warning of the rule (never Error or Hint), and the explanation with
    the confidence as a percentage. *)
Theorem diagnostics_render_entries (config : WorkspaceConfiguration)
        (document : EditorDocument) (editor : Editor) :
  isSupported (languageId (textDocument document)) = true ->
  lineAtCovers document ->
  exists diagnostics : list Diagnostic,
    diagnosticCollection (fst (analyzeDocument config document editor))
    !! uri document = Some diagnostics /\
    Forall2 (describes document)
      (simulateRustAnalysis config (textDocument document)) diagnostics /\
    Forall (fun d => diagnosticSeverity d <> DiagnosticSeverity.Error /\
                     diagnosticSeverity d <> DiagnosticSeverity.Hint) diagnostics.
Proof.
  intros Hsup Hcover.
  destruct (mapThrowing_entries config document Hcover) as (diagnostics & Hmap & HF).
  rewrite (analyzeDocument_supported config document editor diagnostics Hsup Hmap).
  cbn [fst diagnosticCollection].
  exists diagnostics. split; [apply lookup_insert_eq|]. split; [exact HF|].
  clear Hmap. induction HF as [|o d os ds Hd _ IH]; constructor; [|exact IH].
  destruct Hd as (_ & _ & _ & _ & _ & _ & Hsev & _). rewrite Hsev.
  unfold ruleSeverity. destruct (_ || _); split; discriminate.
Qed.

Lemma diagnostics_render_entries_witness :
  exists diagnostics : list Diagnostic,
    diagnosticCollection
      (fst (analyzeDocument defaultConfig (openDocument scenarioA "a.js") emptyEditor))
    !! "a.js" = Some diagnostics /\
    Forall2 (describes (openDocument scenarioA "a.js"))
      (simulateRustAnalysis defaultConfig scenarioA) diagnostics /\
    Forall (fun d => diagnosticSeverity d <> DiagnosticSeverity.Error /\
                     diagnosticSeverity d <> DiagnosticSeverity.Hint) diagnostics.
Proof.
  apply (diagnostics_render_entries defaultConfig
           (openDocument scenarioA "a.js") emptyEditor).
  - reflexivity.
  - intros i Hi. cbn [openDocument lineAt textDocument] in Hi |- *.
    apply nth_error_Some in Hi.
    destruct (nth_error (split LF (getText scenarioA)) i) as [text|];
      [now exists text | contradiction].
Defined.

(** X14. When the editor cannot deliver the line of some entry, the map
    throws and [analyzeDocument] catches it: it returns 0, shows the
    error message, and the diagnostic collection stays as it was. *)
Theorem analyzeDocument_catches (config : WorkspaceConfiguration)
        (document : EditorDocument) (editor : Editor) (o : Optimization) :
  isSupported (languageId (textDocument document)) = true ->
  In o (simulateRustAnalysis config (textDocument document)) ->
  lineAt document (line_number o - 1) = None ->
  analyzeDocument config document editor = (notify editor AnalysisError, 0) /\
  diagnosticCollection (fst (analyzeDocument config document editor))
  = diagnosticCollection editor.
Proof.
  intros Hsup Hin Hline.
  assert (Hfail : mapThrowing (toDiagnostic document)
                    (simulateRustAnalysis config (textDocument document)) = None).
  { apply (mapThrowing_fails _ _ o Hin). rewrite toDiagnostic_eq. now rewrite Hline. }
  unfold analyzeDocument. rewrite Hsup, Hfail. split; reflexivity.
Qed.

Lemma analyzeDocument_catches_witness :
  analyzeDocument defaultConfig (brokenDocument scenarioA "a.js") staleEditor
  = (notify staleEditor AnalysisError, 0) /\
  diagnosticCollection
    (fst (analyzeDocument defaultConfig (brokenDocument scenarioA "a.js") staleEditor))
  = diagnosticCollection staleEditor.
Proof.
  apply (analyzeDocument_catches defaultConfig (brokenDocument scenarioA "a.js")
           staleEditor (useConst (String.append "let userName = " (String.append dq (String.append "John" (String.append dq ";")))) 0)).
  - reflexivity.
  - cbn. left. reflexivity.
  - reflexivity.
Defined.

(** X15. A Rust document, which is supported and never has entries,
    gets the empty list of diagnostics: what an earlier analysis left
    under its URI is removed, nothing is shown, 0 is returned, whatever
    the text and the configuration. A document in an unsupported
    language is not touched at all, and the analysis would have had no
    entry for it. *)
Theorem analyzeDocument_clears_or_skips (config : WorkspaceConfiguration)
        (document : EditorDocument) (editor : Editor) :
  (languageId (textDocument document) = "rust" ->
   analyzeDocument config document editor
   = ({| diagnosticCollection :=
           <[uri document := []]> (diagnosticCollection editor);
         notifications := notifications editor |}, 0)) /\
  (isSupported (languageId (textDocument document)) = false ->
   analyzeDocument config document editor = (editor, 0) /\
   simulateRustAnalysis config (textDocument document) = []).
Proof.
  split.
  - intros Hrust.
    assert (Hempty : simulateRustAnalysis config (textDocument document) = []).
    { rewrite simulateRustAnalysis_eq. unfold candidates.
      rewrite Hrust, collect_other; reflexivity. }
    unfold analyzeDocument. rewrite Hempty, Hrust. reflexivity.
  - intros Hsup. split; [|now apply not_supported_no_entries].
    unfold analyzeDocument. now rewrite Hsup.
Qed.

Lemma analyzeDocument_clears_or_skips_witness :
  diagnosticCollection staleEditor !! "main.rs" = Some [staleDiagnostic] /\
  diagnosticCollection
    (fst (analyzeDocument defaultConfig (openDocument rustSample "main.rs") staleEditor))
  !! "main.rs" = Some [] /\
  analyzeDocument defaultConfig
    (openDocument {| languageId := "plaintext"; getText := "print(1)" |} "main.rs")
    staleEditor
  = (staleEditor, 0).
Proof.
  split; [apply lookup_singleton_eq|]. split.
  - rewrite (proj1 (analyzeDocument_clears_or_skips defaultConfig
                      (openDocument rustSample "main.rs") staleEditor) eq_refl).
    apply lookup_insert_eq.
  - apply (proj2 (analyzeDocument_clears_or_skips defaultConfig
             (openDocument {| languageId := "plaintext"; getText := "print(1)" |}
                           "main.rs") staleEditor)).
    reflexivity.
Defined.

(** ** The workspace command and the listeners *)








Example analyzeWorkspace_run :
  let editor := analyzeWorkspaceCommand defaultConfig workspaceFiles emptyEditor in
  notifications editor
  = [ AnalyzingWorkspace; FoundOpportunities 2 "a.js";
      FoundOpportunities 2 "c.py"; WorkspaceComplete 4 ] /\
  map (fun u => option_map (@List.length Diagnostic) (diagnosticCollection editor !! u))
      ["a.js"; "main.rs"; "c.py"; "notes.txt"]
  = [Some 2; Some 0; Some 2; None].
Proof. vm_compute. split; reflexivity. Qed.

(** The gate of the listeners repeats the gate of [analyzeDocument]. *)
Lemma onDidSaveTextDocument_eq (config : WorkspaceConfiguration)
      (document : EditorDocument) (editor : Editor) :
  onDidSaveTextDocument config document editor
  = fst (analyzeDocument config document editor).
Proof.
  unfold onDidSaveTextDocument, analyzeDocument.
  now destruct (isSupported _).
Qed.

(** ** The configuration shown *)

(** X17. The figure that [showConfig] presents as the number of enabled
    rules is the number of keys of the setting, whatever their values:
    setting a rule that was not listed to false raises it by one, and
    changing the value of a listed rule leaves it as it is. *)
Theorem showConfig_counts_keys (rules : gmap string bool) (rule : string)
        (value : bool) (threshold : option Q) :
  let count (m : gmap string bool) :=
    showConfig_enabledRulesCount
      {| enabledRules := Some m; minimumConfidence := threshold |} in
  (rules !! rule = None -> count (<[rule := value]> rules) = S (count rules)) /\
  (forall old : bool,
      rules !! rule = Some old -> count (<[rule := value]> rules) = count rules).
Proof.
  intros count. unfold count, showConfig_enabledRulesCount. cbn [get enabledRules].
  split.
  - intros Hnone. now apply map_size_insert_None.
  - intros old Hold. apply map_size_insert_Some. rewrite Hold. now exists old.
Qed.

Lemma showConfig_counts_keys_witness :
  showConfig_enabledRulesCount
    {| enabledRules := Some (<[ "no-console" := false ]> {[ "use-const" := false ]});
       minimumConfidence := None |}
  = S (showConfig_enabledRulesCount scenarioD_config).
Proof.
  apply (proj1 (showConfig_counts_keys {[ "use-const" := false ]} "no-console"
                  false None)).
  reflexivity.
Defined.

(** * Rules and their entries *)

(** X18. The rule of an entry belongs to the language of the document
    (use-const and no-console to javascript and typescript,
    use-f-strings and no-print-debug to python), and the language name,
    severity, explanation and confidence of the entry are the constants
    of its rule: nothing in them depends on the text. *)
Theorem entry_metadata_by_rule (config : WorkspaceConfiguration)
        (document : TextDocument) (o : Optimization) :
  In o (simulateRustAnalysis config document) ->
  ((isJavaScriptLike (languageId document) = true /\
    (rule_name o = "use-const" \/ rule_name o = "no-console")) \/
   (isPython (languageId document) = true /\
    (rule_name o = "use-f-strings" \/ rule_name o = "no-print-debug"))) /\
  language o = ruleLanguage (rule_name o) /\
  severity o = ruleSeverityText (rule_name o) /\
  explanation o = ruleExplanation (rule_name o) /\
  confidence o = ruleConfidence (rule_name o).
Proof.
  intros Hin. apply In_simulateRustAnalysis in Hin as [Hin _].
  apply In_candidates in Hin as (i & line & _ & Hemit).
  destruct Hemit as [Hl _ | Hl _ | Hl _ | Hl _]; cbn;
    (split; [auto | repeat split]).
Qed.

Lemma entry_metadata_by_rule_witness :
  ((isJavaScriptLike "python" = true /\
    ("use-f-strings" = "use-const" \/ "use-f-strings" = "no-console")) \/
   (isPython "python" = true /\
    ("use-f-strings" = "use-f-strings" \/ "use-f-strings" = "no-print-debug"))) /\
  "Python" = ruleLanguage "use-f-strings" /\
  "Info" = ruleSeverityText "use-f-strings" /\
  "Use f-strings instead of .format() for better performance"
  = ruleExplanation "use-f-strings" /\
  0.7%Q = ruleConfidence "use-f-strings".
Proof.
  apply (entry_metadata_by_rule defaultConfig scenarioC
           (useFStrings "msg = 'hi {}'.format(name)" 0)).
  cbn. left. reflexivity.
Defined.

Lemma includes_replace_keeps (pat rep s : string) :
  includes pat rep = true -> includes pat s = true ->
  includes pat (replace pat rep s) = true.
Proof.
  intros Hrep Hs.
  destruct (replace_present pat rep s Hs) as (before & after & _ & -> & _).
  now apply includes_within.
Qed.

(** X19. The suggested code of a no-console or no-print-debug entry
    still contains the pattern of its rule, because the replacement
    only puts a comment mark before it: analysed as a line of its own,
    the suggested code gets an entry of the same rule again. *)
Theorem commented_out_line_is_flagged_again (config : WorkspaceConfiguration)
        (document : TextDocument) (o : Optimization) (index : nat) :
  In o (simulateRustAnalysis config document) ->
  rule_name o = "no-console" \/ rule_name o = "no-print-debug" ->
  includes (rulePattern (rule_name o)) (suggested_code o) = true /\
  exists o' : Optimization,
    In o' (analyzeLine (languageId document) (suggested_code o) index []) /\
    rule_name o' = rule_name o /\
    line_number o' = index + 1.
Proof.
  intros Hin Hrule. apply In_simulateRustAnalysis in Hin as [Hin _].
  apply In_candidates in Hin as (i & line & _ & Hemit).
  fold (lineOptimizations (languageId document) (suggested_code o) index).
  destruct Hemit as [Hl Hg | Hl Hg | Hl Hg | Hl Hg]; cbn in Hrule;
    try (destruct Hrule; discriminate).
  - assert (Hkeep : includes "console.log("
                      (replace "console.log(" "// console.log(" line) = true)
      by (apply includes_replace_keeps; [reflexivity | exact Hg]).
    split; [exact Hkeep|].
    exists (noConsole (replace "console.log(" "// console.log(" line) index).
    split; [|split; reflexivity].
    apply In_lineOptimizations. now constructor.
  - assert (Hkeep : includes "print(" (replace "print(" "# print(" line) = true)
      by (apply includes_replace_keeps; [reflexivity | exact Hg]).
    split; [exact Hkeep|].
    exists (noPrintDebug (replace "print(" "# print(" line) index).
    split; [|split; reflexivity].
    apply In_lineOptimizations. now constructor.
Qed.

Lemma commented_out_line_is_flagged_again_witness :
  includes "print(" "# print(msg)" = true /\
  exists o' : Optimization,
    In o' (analyzeLine "python" "# print(msg)" 0 []) /\
    rule_name o' = "no-print-debug" /\
    line_number o' = 0 + 1.
Proof.
  apply (commented_out_line_is_flagged_again defaultConfig scenarioC
           (noPrintDebug "print(msg)" 1) 0).
  - cbn. right. left. reflexivity.
  - right. reflexivity.
Defined.
